(** * SPMCCB: the offline cache and the Supabase data accessor

    A shallow embedding of the client logic of the song-book application:
    - [contexts/OfflineContext.tsx]  (the cache / settings provider),
    - [hooks/useSupabase.ts]         (the remote data accessor),
    - [screens/SongsScreen.tsx]      (the client-side song filter),
    - [constants/Config.ts]          (row types and [APP_CONFIG]).

    Conventions of the embedding.
    - A React state cell is a field of [Render]; the closures of one render
      see one [Render] value, the setters write the [World].  Every operation
      takes the render whose closures it runs with, so a stale closure is an
      operation applied to an old [Render].
    - Everything outside the program (the backend's replies, AsyncStorage
      rejections, the wall clock) is supplied by a [Host].
    - JavaScript strings are modelled on the ASCII alphabet, integral numbers
      as [Z], times as milliseconds since the epoch in [Z]. *)

From Stdlib Require Import ZArith QArith Qminmax String Ascii List Lia.
From Stdlib Require Import DecimalString Permutation Sorted.
From stdpp Require Import base option list strings gmap.

Local Open Scope Z_scope.

(** ** JavaScript primitives used by the sources *)

Module JS.

(** [number]: the finite doubles are rationals; [Math.max] and [Math.min]
    never round, so the rationals stand for them exactly. *)
Inductive number : Type :=
| NaN
| NegInfinity
| Finite (q : Q)
| Infinity.

Definition Math_min (a b : number) : number :=
  match a, b with
  | NaN, _ | _, NaN => NaN
  | NegInfinity, _ | _, NegInfinity => NegInfinity
  | Infinity, x | x, Infinity => x
  | Finite x, Finite y => if Qle_bool x y then Finite x else Finite y
  end.

Definition Math_max (a b : number) : number :=
  match a, b with
  | NaN, _ | _, NaN => NaN
  | Infinity, _ | _, Infinity => Infinity
  | NegInfinity, x | x, NegInfinity => x
  | Finite x, Finite y => if Qle_bool x y then Finite y else Finite x
  end.

(** The order of the numbers; nothing is related to [NaN]. *)
Definition number_le (a b : number) : Prop :=
  match a, b with
  | NaN, _ | _, NaN => False
  | NegInfinity, _ => True
  | _, Infinity => True
  | Finite x, Finite y => Qle x y
  | _, _ => False
  end.

Definition of_Z (z : Z) : number := Finite (inject_Z z).

(** A thrown value: an [Error] object with its message, or anything else
    (the sources test [err instanceof Error]). *)
Inductive Exn : Type :=
| Error (message : string)
| Thrown.

(** [err instanceof Error ? err.message : fallback] *)
Definition message_or (err : Exn) (fallback : string) : string :=
  match err with
  | Error m => m
  | Thrown => fallback
  end.

(** Strings. *)

Definition is_upper (c : ascii) : bool :=
  ((65 <=? nat_of_ascii c) && (nat_of_ascii c <=? 90))%nat.

Definition lower_char (c : ascii) : ascii :=
  if is_upper c then ascii_of_nat (nat_of_ascii c + 32) else c.

Fixpoint toLowerCase (s : string) : string :=
  match s with
  | EmptyString => EmptyString
  | String c s' => String (lower_char c) (toLowerCase s')
  end.

(** White space of [String.prototype.trim] inside ASCII:
    TAB, LF, VT, FF, CR and SPACE. *)
Definition is_white (c : ascii) : bool :=
  let n := nat_of_ascii c in
  ((9 <=? n) && (n <=? 13) || (n =? 32))%nat.

Fixpoint trimStart (s : string) : string :=
  match s with
  | EmptyString => EmptyString
  | String c s' => if is_white c then trimStart s' else s
  end.

(** [trimEnd] by a right fold: a character is dropped when it is white
    and everything after it has been dropped. *)
Fixpoint trimEnd (s : string) : string :=
  match s with
  | EmptyString => EmptyString
  | String c s' =>
      match trimEnd s' with
      | EmptyString => if is_white c then EmptyString else String c EmptyString
      | t => String c t
      end
  end.

Definition trim (s : string) : string := trimEnd (trimStart s).

(** Truthiness of a string: the empty string is falsy. *)
Definition truthy (s : string) : bool :=
  match s with
  | EmptyString => false
  | String _ _ => true
  end.

Definition is_digit (c : ascii) : bool :=
  ((48 <=? nat_of_ascii c) && (nat_of_ascii c <=? 57))%nat.

Fixpoint all_digits (s : string) : bool :=
  match s with
  | EmptyString => true
  | String c s' => is_digit c && all_digits s'
  end.

(** [/^\d+$/.test(s)] *)
Definition test_digits (s : string) : bool := truthy s && all_digits s.

(** [s.startsWith(q)] *)
Fixpoint startsWith (s q : string) {struct q} : bool :=
  match q with
  | EmptyString => true
  | String c q' =>
      match s with
      | EmptyString => false
      | String d s' => Ascii.eqb c d && startsWith s' q'
      end
  end.

(** [s.includes(q)] *)
Fixpoint includes (s q : string) : bool :=
  startsWith s q ||
  match s with
  | EmptyString => false
  | String _ s' => includes s' q
  end.

(** [n.toString()] of an integral number. *)
Definition toString (n : Z) : string := NilZero.string_of_int (Z.to_int n).

(** [xs.join(sep)] *)
Fixpoint join (sep : string) (xs : list string) : string :=
  match xs with
  | [] => EmptyString
  | [x] => x
  | x :: rest => x +:+ sep +:+ join sep rest
  end.

(** [xs.sort(compare)]: a stable sort; [compare a b > 0] puts [b] first. *)
Section Sort.
Context {A : Type} (compare : A -> A -> Z).

Fixpoint insert_sorted (x : A) (l : list A) : list A :=
  match l with
  | [] => [x]
  | y :: l' => if compare x y <=? 0 then x :: l else y :: insert_sorted x l'
  end.

Definition sort (l : list A) : list A := foldr insert_sorted [] l.
End Sort.

End JS.

(** ** [constants/Config.ts]: row types and application constants *)

Module Song.
Record t : Type := mk {
  id : Z;
  song_number : Z;
  title : string;
  lyrics : string;
  created_at : option string;
  updated_at : option string
}.
End Song.

Module Favourite.
Record t : Type := mk {
  id : option Z;
  user_id : string;
  song_id : Z;
  created_at : option string;
  song : option Song.t
}.
End Favourite.

Module Folder.
Record t : Type := mk {
  id : option Z;
  user_id : string;
  name : string;
  created_at : option string;
  updated_at : option string
}.
End Folder.

Module SongFolder.
Record t : Type := mk {
  id : option Z;
  song_id : Z;
  folder_id : Z;
  created_at : option string;
  song : option Song.t
}.
End SongFolder.

(** The authenticated identity held by [AuthContext]. *)
Module User.
Record t : Type := mk {
  id : string;
  email : option string
}.
End User.

Inductive ThemeMode : Type := light | dark.

Module AppSettings.
Record t : Type := mk {
  theme : ThemeMode;
  fontSize : JS.number;
  autoSync : bool
}.

(** [Partial<AppSettings>] *)
Record partial : Type := mkPartial {
  p_theme : option ThemeMode;
  p_fontSize : option JS.number;
  p_autoSync : option bool
}.

(** [{ ...settings, ...newSettings }] *)
Definition spread (settings : t) (newSettings : partial) : t :=
  {| theme := default (theme settings) (p_theme newSettings);
     fontSize := default (fontSize settings) (p_fontSize newSettings);
     autoSync := default (autoSync settings) (p_autoSync newSettings) |}.
End AppSettings.

Module CacheData.
Record t : Type := mk {
  songs : list Song.t;
  favourites : list Favourite.t;
  folders : list Folder.t;
  lastUpdated : Z
}.

(** [Partial<CacheData>] as [updateCache] reads it: the three lists. *)
Record partial : Type := mkPartial {
  p_songs : option (list Song.t);
  p_favourites : option (list Favourite.t);
  p_folders : option (list Folder.t)
}.
End CacheData.

(** [ApiResponse<T>]: [{ data: T | null, error: string | null }]. *)
Record ApiResponse (T : Type) : Type := mkApi {
  data : option T;
  error : option string
}.
Arguments mkApi {T} _ _.
Arguments data {T} _.
Arguments error {T} _.

Module APP_CONFIG.
(** [cacheTimeout: 24 * 60 * 60 * 1000], 24 hours in milliseconds. *)
Definition cacheTimeout : Z := 24 * 60 * 60 * 1000.
End APP_CONFIG.

(** ** The world the hooks run in *)

(** What the backend client hands back. [PostgrestResponse] is the
    [{ data, error }] pair of a query; [single ()] yields either the row
    or an error; [count] queries yield [{ count, error }]. *)
Record PostgrestError : Type := mkPgError { message : string }.

Record PostgrestResponse (T : Type) : Type := mkPg {
  pg_data : option T;
  pg_error : option PostgrestError
}.
Arguments mkPg {T} _ _.
Arguments pg_data {T} _.
Arguments pg_error {T} _.

Inductive PostgrestSingleResponse (T : Type) : Type :=
| SingleRow (row : T)
| SingleError (err : PostgrestError).
Arguments SingleRow {T} _.
Arguments SingleError {T} _.

Record PostgrestCountResponse : Type := mkPgCount {
  pg_count : option Z;
  pg_count_error : option PostgrestError
}.

(** An awaited promise resolves with a value or rejects with a thrown one. *)
Inductive outcome (A : Type) : Type :=
| Returned (a : A)
| Threw (e : JS.Exn).
Arguments Returned {A} _.
Arguments Threw {A} _.

(** The requests [useSupabase] sends, as the query builder spells them. *)
Inductive Request : Type :=
| SelectSongs
| SelectSong (id : Z)
| SearchSongs (ilike_title : string) (eq_song_number : string)
| SelectFavourites (user_id : string)
| InsertFavourite (user_id : string) (song_id : Z)
| DeleteFavourite (user_id : string) (song_id : Z)
| SelectFolders (user_id : string)
| InsertFolder (user_id : string) (name : string)
| UpdateFolder (id : Z) (user_id : string) (name : string)
| DeleteFolder (id : Z) (user_id : string)
| InsertSongFolder (song_id folder_id : Z)
| DeleteSongFolder (song_id folder_id : Z)
| SelectFolderSongs (folder_id : Z)
| CountFolderSongs (folder_id : Z).

(** The backend as the client sees it during one operation: what each
    query resolves to. *)
Record Backend : Type := mkBackend {
  select_songs : outcome (PostgrestResponse (list Song.t));
  select_song : Z -> outcome (PostgrestSingleResponse Song.t);
  search_songs : string -> string -> outcome (PostgrestResponse (list Song.t));
  select_favourites : string -> outcome (PostgrestResponse (list Favourite.t));
  insert_favourite : string -> Z -> outcome (PostgrestSingleResponse Favourite.t);
  delete_favourite : string -> Z -> outcome (option PostgrestError);
  select_folders : string -> outcome (PostgrestResponse (list Folder.t));
  insert_folder : string -> string -> outcome (PostgrestSingleResponse Folder.t);
  update_folder : Z -> string -> string -> outcome (PostgrestSingleResponse Folder.t);
  delete_folder : Z -> string -> outcome (option PostgrestError);
  insert_song_folder : Z -> Z -> outcome (PostgrestSingleResponse SongFolder.t);
  delete_song_folder : Z -> Z -> outcome (option PostgrestError);
  select_folder_songs : Z -> outcome (PostgrestResponse (list (option Song.t)));
  count_folder_songs : Z -> outcome PostgrestCountResponse
}.

(** Everything outside the program during one operation. *)
Record Host : Type := mkHost {
  backend : Backend;
  (** [AsyncStorage.setItem (key, _)] rejects with [Some e] *)
  setItem_rejects : string -> option JS.Exn;
  (** [AsyncStorage.multiRemove] rejects with [Some e] *)
  multiRemove_rejects : option JS.Exn;
  (** the wall clock at the n-th reading of the operation *)
  clock : nat -> Z
}.

(** What is kept under an AsyncStorage key: the JSON texts are kept as the
    values they serialise. *)
Inductive Blob : Type :=
| CacheDataJSON (c : CacheData.t)
| SettingsJSON (s : AppSettings.t)
| ISOString (t : Z).

(** The values the closures of one render see. *)
Record Render : Type := mkRender {
  user : option User.t;
  cachedSongs : list Song.t;
  cachedFavourites : list Favourite.t;
  cachedFolders : list Folder.t;
  isOffline : bool;
  lastSync : option Z;
  settings : AppSettings.t
}.

Record World : Type := mkWorld {
  (** the current value of every state cell of the two providers *)
  state : Render;
  (** [loading] and [error] of [useSupabase] *)
  hook_loading : bool;
  hook_error : option string;
  (** AsyncStorage *)
  storage : gmap string Blob;
  (** the requests sent to the backend, latest first *)
  network : list Request
}.

(** The render that follows a world: every closure sees the current state. *)
Definition render (w : World) : Render := state w.

(** ** Asynchronous code: state passing with rejection *)

Definition Async (A : Type) : Type := World -> outcome A * World.

Definition ret {A : Type} (a : A) : Async A := fun w => (Returned a, w).

Definition throw {A : Type} (e : JS.Exn) : Async A := fun w => (Threw e, w).

Definition bind {A B : Type} (m : Async A) (k : A -> Async B) : Async B :=
  fun w =>
    match m w with
    | (Returned a, w') => k a w'
    | (Threw e, w') => (Threw e, w')
    end.

(** [try { body } catch (err) { handler err }] *)
Definition try_catch {A : Type} (body : Async A) (handler : JS.Exn -> Async A) : Async A :=
  fun w =>
    match body w with
    | (Returned a, w') => (Returned a, w')
    | (Threw e, w') => handler e w'
    end.

(** [try { body } finally { fin }] *)
Definition try_finally {A : Type} (body : Async A) (fin : Async unit) : Async A :=
  fun w =>
    match body w with
    | (r, w') =>
        match fin w' with
        | (Returned _, w'') => (r, w'')
        | (Threw e, w'') => (Threw e, w'')
        end
    end.

(** [await Promise.all ([a, b])]: both are started; the first rejection,
    in the order of the array, is the one that surfaces. *)
Definition Promise_all2 (a b : Async unit) : Async unit :=
  fun w =>
    match a w with
    | (ra, w1) =>
        match b w1 with
        | (rb, w2) =>
            match ra, rb with
            | Returned _, Returned _ => (Returned tt, w2)
            | Threw e, _ => (Threw e, w2)
            | Returned _, Threw e => (Threw e, w2)
            end
        end
    end.

Declare Scope async_scope.
Delimit Scope async_scope with async.
Bind Scope async_scope with Async.
Notation "x <- m ;; k" := (bind m (fun x => k))
  (at level 100, m at next level, right associativity) : async_scope.
Notation "m ;; k" := (bind m (fun _ => k))
  (at level 100, right associativity) : async_scope.
Local Open Scope async_scope.

(** [if (o !== undefined) f (o)] *)
Definition when_defined {A : Type} (o : option A) (f : A -> Async unit) : Async unit :=
  match o with
  | Some a => f a
  | None => ret tt
  end.

(** State setters. *)

Definition with_state (f : Render -> Render) (w : World) : World :=
  mkWorld (f (state w)) (hook_loading w) (hook_error w) (storage w) (network w).

Definition with_storage (f : gmap string Blob -> gmap string Blob) (w : World) : World :=
  mkWorld (state w) (hook_loading w) (hook_error w) (f (storage w)) (network w).

Definition setCachedSongs (v : list Song.t) : Async unit :=
  fun w => (Returned tt,
    with_state (fun r => mkRender (user r) v (cachedFavourites r) (cachedFolders r)
                                  (isOffline r) (lastSync r) (settings r)) w).

Definition setCachedFavourites (v : list Favourite.t) : Async unit :=
  fun w => (Returned tt,
    with_state (fun r => mkRender (user r) (cachedSongs r) v (cachedFolders r)
                                  (isOffline r) (lastSync r) (settings r)) w).

Definition setCachedFolders (v : list Folder.t) : Async unit :=
  fun w => (Returned tt,
    with_state (fun r => mkRender (user r) (cachedSongs r) (cachedFavourites r) v
                                  (isOffline r) (lastSync r) (settings r)) w).

Definition setLastSync (v : option Z) : Async unit :=
  fun w => (Returned tt,
    with_state (fun r => mkRender (user r) (cachedSongs r) (cachedFavourites r)
                                  (cachedFolders r) (isOffline r) v (settings r)) w).

Definition setSettings (v : AppSettings.t) : Async unit :=
  fun w => (Returned tt,
    with_state (fun r => mkRender (user r) (cachedSongs r) (cachedFavourites r)
                                  (cachedFolders r) (isOffline r) (lastSync r) v) w).

Definition setLoading (v : bool) : Async unit :=
  fun w => (Returned tt, mkWorld (state w) v (hook_error w) (storage w) (network w)).

Definition setError (v : option string) : Async unit :=
  fun w => (Returned tt, mkWorld (state w) (hook_loading w) v (storage w) (network w)).

(** AsyncStorage. A rejected write leaves the key as it was. *)

Definition AsyncStorage_setItem (h : Host) (key : string) (value : Blob) : Async unit :=
  fun w =>
    match setItem_rejects h key with
    | Some e => (Threw e, w)
    | None => (Returned tt, with_storage (fun m => <[key := value]> m) w)
    end.

Definition AsyncStorage_multiRemove (h : Host) (keys : list string) : Async unit :=
  fun w =>
    match multiRemove_rejects h with
    | Some e => (Threw e, w)
    | None => (Returned tt, with_storage (fun m => foldr delete m keys) w)
    end.

(** Sending a request: it is logged, and the promise settles as the
    backend says. *)
Definition call {A : Type} (req : Request) (reply : outcome A) : Async A :=
  fun w => (reply, mkWorld (state w) (hook_loading w) (hook_error w) (storage w)
                           (req :: network w)).

(** ** [contexts/OfflineContext.tsx] *)

Module STORAGE_KEYS.
Definition CACHE_DATA : string := "songbook_cache_data".
Definition SETTINGS : string := "songbook_settings".
Definition LAST_SYNC : string := "songbook_last_sync".
End STORAGE_KEYS.

Definition updateCache (r : Render) (h : Host) (data : CacheData.partial) : Async unit :=
  try_catch
    (let currentTime := clock h 0 in
     when_defined (CacheData.p_songs data) setCachedSongs ;;
     when_defined (CacheData.p_favourites data) setCachedFavourites ;;
     when_defined (CacheData.p_folders data) setCachedFolders ;;
     let cacheData :=
       {| CacheData.songs := default (cachedSongs r) (CacheData.p_songs data);
          CacheData.favourites := default (cachedFavourites r) (CacheData.p_favourites data);
          CacheData.folders := default (cachedFolders r) (CacheData.p_folders data);
          CacheData.lastUpdated := currentTime |} in
     Promise_all2
       (AsyncStorage_setItem h STORAGE_KEYS.CACHE_DATA (CacheDataJSON cacheData))
       (AsyncStorage_setItem h STORAGE_KEYS.LAST_SYNC (ISOString (clock h 1))) ;;
     setLastSync (Some (clock h 2)))
    (fun error => throw error).

Definition clearCache (h : Host) : Async unit :=
  try_catch
    (AsyncStorage_multiRemove h [STORAGE_KEYS.CACHE_DATA; STORAGE_KEYS.LAST_SYNC] ;;
     setCachedSongs [] ;;
     setCachedFavourites [] ;;
     setCachedFolders [] ;;
     setLastSync None)
    (fun error => throw error).

Definition updateSettings (r : Render) (h : Host) (newSettings : AppSettings.partial)
  : Async unit :=
  try_catch
    (let updatedSettings := AppSettings.spread (settings r) newSettings in
     setSettings updatedSettings ;;
     AsyncStorage_setItem h STORAGE_KEYS.SETTINGS (SettingsJSON updatedSettings))
    (fun error => throw error).

Definition toggleTheme (r : Render) (h : Host) : Async unit :=
  let newTheme :=
    match AppSettings.theme (settings r) with
    | light => dark
    | dark => light
    end in
  updateSettings r h (AppSettings.mkPartial (Some newTheme) None None).

Definition updateFontSize (r : Render) (h : Host) (size : JS.number) : Async unit :=
  updateSettings r h
    (AppSettings.mkPartial None
       (Some (JS.Math_max (JS.of_Z 12) (JS.Math_min (JS.of_Z 32) size))) None).

(** [now] is the reading of [Date.now ()]. *)
Definition isCacheExpired (r : Render) (now : Z) : bool :=
  match lastSync r with
  | None => true
  | Some t =>
      let timeDiff := now - t in
      timeDiff >? APP_CONFIG.cacheTimeout
  end.

Definition getSongs (r : Render) : list Song.t := cachedSongs r.

Definition getFavourites (r : Render) : list Favourite.t :=
  match user r with
  | None => []
  | Some u =>
      List.filter (fun fav => String.eqb (Favourite.user_id fav) (User.id u))
                  (cachedFavourites r)
  end.

Definition getFolders (r : Render) : list Folder.t :=
  match user r with
  | None => []
  | Some u =>
      List.filter (fun folder => String.eqb (Folder.user_id folder) (User.id u))
                  (cachedFolders r)
  end.

(** ** [hooks/useSupabase.ts] *)

(** The skeleton every operation of the hook shares:
    [setLoading (true); setError (null);
     try { body } catch (err) { errorMessage; setError; return failure }
     finally { setLoading (false) }]. *)
Definition attempt {T : Type} (fallback : string) (failed : option T)
    (body : Async (ApiResponse T)) : Async (ApiResponse T) :=
  setLoading true ;;
  setError None ;;
  try_finally
    (try_catch body
       (fun err =>
          let errorMessage := JS.message_or err fallback in
          setError (Some errorMessage) ;;
          ret (mkApi failed (Some errorMessage))))
    (setLoading false).

(** [setError (supabaseError.message); return { data, error: supabaseError.message }] *)
Definition supabase_failed {T : Type} (failed : option T) (supabaseError : PostgrestError)
  : Async (ApiResponse T) :=
  setError (Some (message supabaseError)) ;;
  ret (mkApi failed (Some (message supabaseError))).

(** *** Song operations *)

Definition fetchSongs (r : Render) (h : Host) : Async (ApiResponse (list Song.t)) :=
  attempt "Failed to fetch songs" None
    (resp <- call SelectSongs (select_songs (backend h)) ;;
     match pg_error resp with
     | Some supabaseError => supabase_failed None supabaseError
     | None =>
         when_defined (pg_data resp)
           (fun data => updateCache r h (CacheData.mkPartial (Some data) None None)) ;;
         ret (mkApi (Some (default [] (pg_data resp))) None)
     end).

Definition getSong (h : Host) (id : Z) : Async (ApiResponse Song.t) :=
  attempt "Failed to fetch song" None
    (resp <- call (SelectSong id) (select_song (backend h) id) ;;
     match resp with
     | SingleError supabaseError => supabase_failed None supabaseError
     | SingleRow data => ret (mkApi (Some data) None)
     end).

Definition searchSongs (r : Render) (h : Host) (query : string)
  : Async (ApiResponse (list Song.t)) :=
  if negb (JS.truthy (JS.trim query)) then fetchSongs r h
  else
    attempt "Failed to search songs" None
      (let pattern := "%" +:+ query +:+ "%" in
       resp <- call (SearchSongs pattern query) (search_songs (backend h) pattern query) ;;
       match pg_error resp with
       | Some supabaseError => supabase_failed None supabaseError
       | None => ret (mkApi (Some (default [] (pg_data resp))) None)
       end).

(** *** Favourite operations *)

Definition no_user {T : Type} (d : option T) : Async (ApiResponse T) :=
  ret (mkApi d (Some "No user found")).

Definition fetchFavourites (r : Render) (h : Host) : Async (ApiResponse (list Favourite.t)) :=
  match user r with
  | None => no_user (Some [])
  | Some u =>
      attempt "Failed to fetch favourites" None
        (resp <- call (SelectFavourites (User.id u))
                      (select_favourites (backend h) (User.id u)) ;;
         match pg_error resp with
         | Some supabaseError => supabase_failed None supabaseError
         | None =>
             when_defined (pg_data resp)
               (fun data => updateCache r h (CacheData.mkPartial None (Some data) None)) ;;
             ret (mkApi (Some (default [] (pg_data resp))) None)
         end)
  end.

(** [fav.song_id === songId && fav.user_id === user.id] *)
Definition same_favourite (u : User.t) (songId : Z) (fav : Favourite.t) : bool :=
  (Favourite.song_id fav =? songId) && String.eqb (Favourite.user_id fav) (User.id u).

Definition addFavourite (r : Render) (h : Host) (songId : Z)
  : Async (ApiResponse Favourite.t) :=
  match user r with
  | None => no_user None
  | Some u =>
      attempt "Failed to add favourite" None
        (match List.find (same_favourite u songId) (cachedFavourites r) with
         | Some existingFav => ret (mkApi (Some existingFav) None)
         | None =>
             resp <- call (InsertFavourite (User.id u) songId)
                          (insert_favourite (backend h) (User.id u) songId) ;;
             match resp with
             | SingleError supabaseError => supabase_failed None supabaseError
             | SingleRow data =>
                 let updatedFavourites := (cachedFavourites r ++ [data])%list in
                 updateCache r h (CacheData.mkPartial None (Some updatedFavourites) None) ;;
                 ret (mkApi (Some data) None)
             end
         end)
  end.

Definition removeFavourite (r : Render) (h : Host) (songId : Z) : Async (ApiResponse bool) :=
  match user r with
  | None => no_user (Some false)
  | Some u =>
      attempt "Failed to remove favourite" (Some false)
        (resp <- call (DeleteFavourite (User.id u) songId)
                      (delete_favourite (backend h) (User.id u) songId) ;;
         match resp with
         | Some supabaseError => supabase_failed (Some false) supabaseError
         | None =>
             let updatedFavourites :=
               List.filter (fun fav => negb (same_favourite u songId fav))
                           (cachedFavourites r) in
             updateCache r h (CacheData.mkPartial None (Some updatedFavourites) None) ;;
             ret (mkApi (Some true) None)
         end)
  end.

Definition isFavourite (r : Render) (songId : Z) : bool :=
  match user r with
  | None => false
  | Some u => existsb (same_favourite u songId) (cachedFavourites r)
  end.

(** *** Folder operations *)

Definition fetchFolders (r : Render) (h : Host) : Async (ApiResponse (list Folder.t)) :=
  match user r with
  | None => no_user (Some [])
  | Some u =>
      attempt "Failed to fetch folders" None
        (resp <- call (SelectFolders (User.id u)) (select_folders (backend h) (User.id u)) ;;
         match pg_error resp with
         | Some supabaseError => supabase_failed None supabaseError
         | None =>
             when_defined (pg_data resp)
               (fun data => updateCache r h (CacheData.mkPartial None None (Some data))) ;;
             ret (mkApi (Some (default [] (pg_data resp))) None)
         end)
  end.

Definition createFolder (r : Render) (h : Host) (name : string) : Async (ApiResponse Folder.t) :=
  match user r with
  | None => no_user None
  | Some u =>
      attempt "Failed to create folder" None
        (resp <- call (InsertFolder (User.id u) (JS.trim name))
                      (insert_folder (backend h) (User.id u) (JS.trim name)) ;;
         match resp with
         | SingleError supabaseError => supabase_failed None supabaseError
         | SingleRow data =>
             fetchFolders r h ;;
             ret (mkApi (Some data) None)
         end)
  end.

Definition updateFolder (r : Render) (h : Host) (id : Z) (name : string)
  : Async (ApiResponse Folder.t) :=
  match user r with
  | None => no_user None
  | Some u =>
      attempt "Failed to update folder" None
        (resp <- call (UpdateFolder id (User.id u) (JS.trim name))
                      (update_folder (backend h) id (User.id u) (JS.trim name)) ;;
         match resp with
         | SingleError supabaseError => supabase_failed None supabaseError
         | SingleRow data =>
             fetchFolders r h ;;
             ret (mkApi (Some data) None)
         end)
  end.

Definition deleteFolder (r : Render) (h : Host) (id : Z) : Async (ApiResponse bool) :=
  match user r with
  | None => no_user (Some false)
  | Some u =>
      attempt "Failed to delete folder" (Some false)
        (resp <- call (DeleteFolder id (User.id u)) (delete_folder (backend h) id (User.id u)) ;;
         match resp with
         | Some supabaseError => supabase_failed (Some false) supabaseError
         | None =>
             fetchFolders r h ;;
             ret (mkApi (Some true) None)
         end)
  end.

(** *** Song-folder operations *)

Definition addSongToFolder (h : Host) (songId folderId : Z) : Async (ApiResponse SongFolder.t) :=
  attempt "Failed to add song to folder" None
    (resp <- call (InsertSongFolder songId folderId)
                  (insert_song_folder (backend h) songId folderId) ;;
     match resp with
     | SingleError supabaseError => supabase_failed None supabaseError
     | SingleRow data => ret (mkApi (Some data) None)
     end).

Definition removeSongFromFolder (h : Host) (songId folderId : Z) : Async (ApiResponse bool) :=
  attempt "Failed to remove song from folder" (Some false)
    (resp <- call (DeleteSongFolder songId folderId)
                  (delete_song_folder (backend h) songId folderId) ;;
     match resp with
     | Some supabaseError => supabase_failed (Some false) supabaseError
     | None => ret (mkApi (Some true) None)
     end).

(** The reply lists [item.song] of every link row;
    [data?.map (item => item.song).filter (Boolean) || []]. *)
Definition getFolderSongs (h : Host) (folderId : Z) : Async (ApiResponse (list Song.t)) :=
  attempt "Failed to fetch folder songs" None
    (resp <- call (SelectFolderSongs folderId) (select_folder_songs (backend h) folderId) ;;
     match pg_error resp with
     | Some supabaseError => supabase_failed None supabaseError
     | None =>
         let songs :=
           match pg_data resp with
           | Some data => omap (fun item_song : option Song.t => item_song) data
           | None => []
           end in
         ret (mkApi (Some songs) None)
     end).

Definition getFolderSongCount (h : Host) (folderId : Z) : Async Z :=
  try_catch
    (resp <- call (CountFolderSongs folderId) (count_folder_songs (backend h) folderId) ;;
     match pg_count_error resp with
     | Some supabaseError => ret 0
     | None => ret (default 0 (pg_count resp))
     end)
    (fun err => ret 0).

(** *** Sync *)

(** [Boolean (error)] for [error : string | null]. *)
Definition Boolean (error : option string) : bool :=
  match error with
  | None => false
  | Some s => JS.truthy s
  end.

(** [[a, b, c].filter (Boolean)] *)
Definition filter_Boolean (errors : list (option string)) : list string :=
  omap (fun e => if Boolean e then e else None) errors.

(** The three fetches of [Promise.all] are run here one after the other,
    in the order of the array, each against its own host. What each of
    them returns, and so what [syncAllData] returns, does not depend on how
    the three interleave; the flags of the hook and the order of the writes
    to storage do, and are those of this order only. *)
Definition syncAllData (r : Render) (h_songs h_favourites h_folders : Host)
  : Async (ApiResponse bool) :=
  attempt "Failed to sync data" (Some false)
    (songsResult <- fetchSongs r h_songs ;;
     favouritesResult <- fetchFavourites r h_favourites ;;
     foldersResult <- fetchFolders r h_folders ;;
     if Boolean (error songsResult) || Boolean (error favouritesResult)
        || Boolean (error foldersResult)
     then
       let errors :=
         JS.join ", "
           (filter_Boolean [error songsResult; error favouritesResult; error foldersResult]) in
       setError (Some errors) ;;
       ret (mkApi (Some false) (Some errors))
     else ret (mkApi (Some true) None)).

(** ** [screens/SongsScreen.tsx] *)

(** [localeCompare] is the collation of the device, a parameter here. *)
Definition filteredSongs (localeCompare : string -> string -> Z)
    (allSongs : list Song.t) (searchQuery : string) : list Song.t :=
  if negb (JS.truthy (JS.trim searchQuery)) then allSongs
  else
    let query := JS.trim (JS.toLowerCase searchQuery) in
    let isNumberSearch := JS.test_digits query in
    JS.sort
      (fun a b =>
         if isNumberSearch then Song.song_number a - Song.song_number b
         else localeCompare (Song.title a) (Song.title b))
      (List.filter
         (fun song =>
            if isNumberSearch then
              let songNumber := JS.toString (Song.song_number song) in
              String.eqb songNumber query || JS.startsWith songNumber query
            else JS.includes (JS.toLowerCase (Song.title song)) query)
         allSongs).

(** ** The backend's reading of the search filter

    [searchSongs] sends [or (title.ilike.%q%, song_number.eq.q)]; what the
    table of [database/setup.sql] ([song_number INTEGER], [title TEXT])
    selects for it is SQL's: [ilike] is [LIKE] without regard to case, with
    [%] for any run of characters and [_] for any one, and [eq] on the
    integer column reads its operand as an integer literal. *)

Module Postgrest.

Fixpoint like (pattern s : string) {struct pattern} : bool :=
  match pattern with
  | EmptyString =>
      match s with
      | EmptyString => true
      | String _ _ => false
      end
  | String c pattern' =>
      if Ascii.eqb c "%" then
        (fix skip (s : string) : bool :=
           like pattern' s ||
           match s with
           | EmptyString => false
           | String _ s' => skip s'
           end) s
      else
        match s with
        | EmptyString => false
        | String d s' => (Ascii.eqb c "_" || Ascii.eqb c d) && like pattern' s'
        end
  end.

Definition ilike (s pattern : string) : bool :=
  like (JS.toLowerCase pattern) (JS.toLowerCase s).

Fixpoint digits_value (acc : Z) (s : string) : option Z :=
  match s with
  | EmptyString => Some acc
  | String c s' =>
      if JS.is_digit c then digits_value (10 * acc + (Z.of_nat (nat_of_ascii c) - 48)) s'
      else None
  end.

(** An integer literal: white space around an optional sign and at least
    one digit, within the range of a 32-bit integer. *)
Definition int4in (s : string) : option Z :=
  let t := JS.trim s in
  let signed :=
    match t with
    | String "-" d => if JS.truthy d then Z.opp <$> digits_value 0 d else None
    | String "+" d => if JS.truthy d then digits_value 0 d else None
    | _ => if JS.truthy t then digits_value 0 t else None
    end in
  match signed with
  | Some n => if (- 2147483648 <=? n) && (n <=? 2147483647) then Some n else None
  | None => None
  end.

Definition songs_or (table : list Song.t) (ilike_title eq_song_number : string)
  : PostgrestResponse (list Song.t) :=
  match int4in eq_song_number with
  | None => mkPg None (Some (mkPgError "invalid input syntax for type integer"))
  | Some n =>
      mkPg (Some (List.filter
                    (fun song => ilike (Song.title song) ilike_title
                                 || (Song.song_number song =? n))
                    table))
           None
  end.

(** [select ('*').order ('song_number', { ascending: true })] *)
Definition songs_ordered (table : list Song.t) : PostgrestResponse (list Song.t) :=
  mkPg (Some (JS.sort (fun a b => Song.song_number a - Song.song_number b) table)) None.

End Postgrest.

(** ** Concrete hosts and rows for the examples below *)

Module Sample.

Definition rejected {A : Type} : outcome A := Threw (JS.Error "Network request failed").

(** A backend that answers the queries named and rejects every other. *)
Definition scripted
    (songs : outcome (PostgrestResponse (list Song.t)))
    (search : string -> string -> outcome (PostgrestResponse (list Song.t)))
    (favourites : outcome (PostgrestResponse (list Favourite.t)))
    (new_favourite : string -> Z -> outcome (PostgrestSingleResponse Favourite.t))
    (folders : outcome (PostgrestResponse (list Folder.t)))
    (new_link : Z -> Z -> outcome (PostgrestSingleResponse SongFolder.t))
    (count : outcome PostgrestCountResponse) : Backend :=
  {| select_songs := songs;
     select_song := fun _ => rejected;
     search_songs := search;
     select_favourites := fun _ => favourites;
     insert_favourite := new_favourite;
     delete_favourite := fun _ _ => rejected;
     select_folders := fun _ => folders;
     insert_folder := fun _ _ => rejected;
     update_folder := fun _ _ _ => rejected;
     delete_folder := fun _ _ => rejected;
     insert_song_folder := new_link;
     delete_song_folder := fun _ _ => rejected;
     select_folder_songs := fun _ => rejected;
     count_folder_songs := fun _ => count |}.

Definition unreachable : Backend :=
  scripted rejected (fun _ _ => rejected) rejected (fun _ _ => rejected) rejected
           (fun _ _ => rejected) rejected.

(** A device whose storage accepts every write and whose clock stands at
    [now]. *)
Definition device (b : Backend) (now : Z) : Host :=
  {| backend := b;
     setItem_rejects := fun _ => None;
     multiRemove_rejects := None;
     clock := fun _ => now |}.

(** A device whose storage is full. *)
Definition full_device (b : Backend) (now : Z) : Host :=
  {| backend := b;
     setItem_rejects := fun _ => Some (JS.Error "database or disk is full");
     multiRemove_rejects := None;
     clock := fun _ => now |}.

Definition alice : User.t := User.mk "a11ce" (Some "alice@example.org").
Definition bob : User.t := User.mk "b0b" (Some "bob@example.org").

Definition amazing_grace : Song.t :=
  Song.mk 1 1 "Amazing Grace" "Amazing grace, how sweet the sound" None None.
Definition holy_night : Song.t :=
  Song.mk 2 12 "Holy Night" "O holy night, the stars are brightly shining" None None.
Definition songs : list Song.t := [amazing_grace; holy_night].

Definition favourite_of (u : User.t) (row_id song_id : Z) : Favourite.t :=
  Favourite.mk (Some row_id) (User.id u) song_id None None.
Definition folder_of (u : User.t) (row_id : Z) (name : string) : Folder.t :=
  Folder.mk (Some row_id) (User.id u) name None None.

Definition default_settings : AppSettings.t := AppSettings.mk light (JS.of_Z 16) true.

(** A world with the given user and cache, nothing stored, nothing sent. *)
Definition world (u : option User.t) (cs : list Song.t) (cf : list Favourite.t)
    (cd : list Folder.t) (synced : option Z) : World :=
  {| state := mkRender u cs cf cd false synced default_settings;
     hook_loading := false;
     hook_error := None;
     storage := ∅;
     network := [] |}.

(** A collation for the examples: the order of the character codes. *)
Definition collate (a b : string) : Z :=
  match String.compare a b with
  | Lt => -1
  | Eq => 0
  | Gt => 1
  end.

(** A backend serving the [songs] table and nothing else. *)
Definition serving (table : list Song.t) : Backend :=
  scripted (Returned (Postgrest.songs_ordered table))
           (fun pattern number => Returned (Postgrest.songs_or table pattern number))
           rejected (fun _ _ => rejected) rejected (fun _ _ => rejected) rejected.

End Sample.

(** ** A sequence of [updateCache] calls

    Each call runs with the closures of some render (possibly a stale one)
    and against its own host; a caller that catches a rejection goes on to
    the next call. *)
Definition updateCache_calls (calls : list (Render * Host * CacheData.partial))
    (w : World) : World :=
  fold_left (fun w '(r, h, data) => snd (updateCache r h data w)) calls w.

(** The value a field ends with according to the specification: the last of
    the values provided for it, the initial value when none was. *)
Definition last_provided {A : Type} (field : CacheData.partial -> option A)
    (calls : list (Render * Host * CacheData.partial)) (initial : A) : A :=
  List.last (omap (fun call => field (snd call)) calls) initial.

(** ** Vocabulary of the statements *)

(** The pair the backend keeps unique in [favourites]. *)
Definition favourite_key (fav : Favourite.t) : string * Z :=
  (Favourite.user_id fav, Favourite.song_id fav).

(** The backend answers an insert into [favourites] with the row it was
    asked to insert ([insert (...).select ().single ()]). *)
Definition returns_inserted_row (b : Backend) : Prop :=
  forall uid sid row,
    insert_favourite b uid sid = Returned (SingleRow row) ->
    Favourite.user_id row = uid /\ Favourite.song_id row = sid.

(** A count query that did not go through: the promise rejected, or the
    reply carries an error. *)
Definition count_failed (reply : outcome PostgrestCountResponse) : Prop :=
  match reply with
  | Threw _ => True
  | Returned resp => pg_count_error resp <> None
  end.

(** The world after one request and nothing else. *)
Definition sent (req : Request) (w : World) : World :=
  mkWorld (state w) (hook_loading w) (hook_error w) (storage w) (req :: network w).

(** A fetch succeeded when its result carries no error. *)
Definition succeeded {T : Type} (result : ApiResponse T) : Prop := error result = None.





(** ** [contexts/OfflineContext.tsx]: start-up *)

Definition DEFAULT_SETTINGS : AppSettings.t := AppSettings.mk light (JS.of_Z 16) true.

(** [x || d] for [x : number | null]: [null], [NaN] and zero are falsy. *)
Definition number_or (x : option JS.number) (d : JS.number) : JS.number :=
  match x with
  | None => d
  | Some JS.NaN => d
  | Some (JS.Finite q) => if Qeq_bool q 0 then d else JS.Finite q
  | Some JS.NegInfinity => JS.NegInfinity
  | Some JS.Infinity => JS.Infinity
  end.

(** A settings object as it is at run time after [JSON.parse]: the font
    size may be [null]. *)
Module LoadedSettings.
Record t : Type := mk {
  theme : ThemeMode;
  fontSize : option JS.number;
  autoSync : bool
}.

Definition of_settings (s : AppSettings.t) : t :=
  mk (AppSettings.theme s) (Some (AppSettings.fontSize s)) (AppSettings.autoSync s).
End LoadedSettings.

(** [JSON.stringify] writes [null] for a number that is not finite. *)
Definition JSON_number (n : JS.number) : option JS.number :=
  match n with
  | JS.Finite q => Some (JS.Finite q)
  | _ => None
  end.

(** [{ ...DEFAULT_SETTINGS, ...JSON.parse (JSON.stringify (s)) }]: the text
    written by [updateSettings] carries the three keys, so each of them
    overrides the default. *)
Definition reloaded (s : AppSettings.t) : LoadedSettings.t :=
  LoadedSettings.mk (AppSettings.theme s) (JSON_number (AppSettings.fontSize s))
                    (AppSettings.autoSync s).

(** [theme: settings?.theme || 'light'] (both theme names are truthy),
    [fontSize: Math.max (settings?.fontSize || 16, 12)],
    [autoSync: settings?.autoSync ?? true]. *)
Definition ensureValidSettings (settings : LoadedSettings.t) : AppSettings.t :=
  {| AppSettings.theme := LoadedSettings.theme settings;
     AppSettings.fontSize :=
       JS.Math_max (number_or (LoadedSettings.fontSize settings) (JS.of_Z 16)) (JS.of_Z 12);
     AppSettings.autoSync := LoadedSettings.autoSync settings |}.

(** [Math.max (settings?.fontSize || 16, 12)], the size the screens draw
    with ([SettingsScreen], [LyricsScreen], [SongCard]). *)
Definition currentFontSize (r : Render) : JS.number :=
  JS.Math_max (number_or (Some (AppSettings.fontSize (settings r))) (JS.of_Z 16)) (JS.of_Z 12).

(** The three texts [loadCachedData] reads, each as the value it
    serialises. *)
Record Stored : Type := mkStored {
  cachedDataString : option CacheData.t;
  settingsString : option AppSettings.t;
  lastSyncString : option Z
}.

(** Every key holds a text of the kind the program writes under it. *)
Definition well_kinded (m : gmap string Blob) : Prop :=
  (forall b, m !! STORAGE_KEYS.CACHE_DATA = Some b -> exists c, b = CacheDataJSON c)
  /\ (forall b, m !! STORAGE_KEYS.SETTINGS = Some b -> exists s, b = SettingsJSON s)
  /\ (forall b, m !! STORAGE_KEYS.LAST_SYNC = Some b -> exists t, b = ISOString t).

(** The texts under the three keys; [None] when a key holds a text of
    another kind than the program writes there, which is outside this
    model (see [well_kinded]). *)
Definition stored (m : gmap string Blob) : option Stored :=
  match m !! STORAGE_KEYS.CACHE_DATA with
  | Some (SettingsJSON _) | Some (ISOString _) => None
  | cache =>
      match m !! STORAGE_KEYS.SETTINGS with
      | Some (CacheDataJSON _) | Some (ISOString _) => None
      | prefs =>
          match m !! STORAGE_KEYS.LAST_SYNC with
          | Some (CacheDataJSON _) | Some (SettingsJSON _) => None
          | sync =>
              Some (mkStored
                      (match cache with Some (CacheDataJSON c) => Some c | _ => None end)
                      (match prefs with Some (SettingsJSON s) => Some s | _ => None end)
                      (match sync with Some (ISOString t) => Some t | _ => None end))
          end
      end
  end.

(** [await Promise.all ([getItem (CACHE_DATA), getItem (SETTINGS),
    getItem (LAST_SYNC)])]: it rejects when one of the reads does. *)
Definition AsyncStorage_getItems (getItem_rejects : string -> option JS.Exn) : Async unit :=
  match getItem_rejects STORAGE_KEYS.CACHE_DATA with
  | Some e => throw e
  | None =>
      match getItem_rejects STORAGE_KEYS.SETTINGS with
      | Some e => throw e
      | None =>
          match getItem_rejects STORAGE_KEYS.LAST_SYNC with
          | Some e => throw e
          | None => ret tt
          end
      end
  end.

Definition loadCachedData_from (getItem_rejects : string -> option JS.Exn) (texts : Stored)
  : Async unit :=
  try_catch
    (AsyncStorage_getItems getItem_rejects ;;
     when_defined (cachedDataString texts)
       (fun cacheData =>
          setCachedSongs (CacheData.songs cacheData) ;;
          setCachedFavourites (CacheData.favourites cacheData) ;;
          setCachedFolders (CacheData.folders cacheData)) ;;
     match settingsString texts with
     | Some loadedSettings => setSettings (ensureValidSettings (reloaded loadedSettings))
     | None => setSettings (ensureValidSettings (LoadedSettings.of_settings DEFAULT_SETTINGS))
     end ;;
     when_defined (lastSyncString texts) (fun t => setLastSync (Some t)))
    (fun error => ret tt).

Definition loadCachedData (getItem_rejects : string -> option JS.Exn) (w : World)
  : option (outcome unit * World) :=
  match stored (storage w) with
  | Some texts => Some (loadCachedData_from getItem_rejects texts w)
  | None => None
  end.

(** The provider as it mounts: the state cells at their initial values,
    the storage of the device as it was left. *)
Definition mounted (u : option User.t) (w : World) : World :=
  mkWorld (mkRender u [] [] [] false None DEFAULT_SETTINGS) false None (storage w) [].

(** ** [hooks/useSupabase.ts]: the fallback helper *)

Definition executeWithFallback {T : Type} (r : Render)
    (onlineOperation : Async (ApiResponse T)) (offlineData : option T)
  : Async (ApiResponse T) :=
  if isOffline r && bool_decide (is_Some offlineData) then ret (mkApi offlineData None)
  else
    try_catch onlineOperation
      (fun err =>
         match offlineData with
         | Some d => ret (mkApi (Some d) None)
         | None => ret (mkApi None (Some (JS.message_or err "Unknown error")))
         end).

(** ** [components/SongCard.tsx] and [screens/LyricsScreen.tsx]: the heart *)

Definition handleFavouriteToggle (r : Render) (h : Host) (song : Song.t) : Async unit :=
  let isCurrentlyFavourite := isFavourite r (Song.id song) in
  try_catch
    (if isCurrentlyFavourite
     then removeFavourite r h (Song.id song) ;; ret tt
     else addFavourite r h (Song.id song) ;; ret tt)
    (fun error => ret tt).

(** ** [screens/SongsScreen.tsx] and [screens/FolderDetailScreen.tsx]:
    loading the songs

    A setter of a screen's own state is modelled by the value handed to
    it: [loadSongs] returns the list given to [setAllSongs]. *)

Definition loadSongs (r : Render) (h : Host) : Async (list Song.t) :=
  try_catch
    (result <- fetchSongs r h ;;
     match data result with
     | Some d => ret d
     | None => ret (getSongs r)
     end)
    (fun err => ret (getSongs r)).

(** The effect of [SongsScreen] at mount. *)
Definition initializeSongs (r : Render) (h : Host) : Async (list Song.t) :=
  let cachedSongs := getSongs r in
  if (0 <? length cachedSongs)%nat then ret cachedSongs else loadSongs r h.

(** ** [screens/FavouritesScreen.tsx] *)

(** [data.map (fav => fav.song).filter (song => song !== undefined)] *)
Definition songs_of (favourites : list Favourite.t) : list Song.t :=
  omap Favourite.song favourites.

Definition loadCachedFavourites (r : Render) : list Song.t :=
  let cachedFavourites := getFavourites r in
  let allSongs := getSongs r in
  omap (fun fav => List.find (fun song => Song.id song =? Favourite.song_id fav) allSongs)
       cachedFavourites.

(** The list handed to [setFavouriteSongs]. *)
Definition loadFavourites (r : Render) (h : Host) : Async (list Song.t) :=
  try_catch
    (result <- fetchFavourites r h ;;
     match data result with
     | Some d => ret (songs_of d)
     | None => ret (loadCachedFavourites r)
     end)
    (fun err => ret (loadCachedFavourites r)).


(** ** [screens/FolderDetailScreen.tsx]: the songs offered for a folder *)

(** [allSongs.filter (song => !folderSongs.some (f => f.id === song.id))] *)
Definition availableSongs (allSongs folderSongs : list Song.t) : list Song.t :=
  List.filter
    (fun song => negb (existsb (fun folderSong => Song.id folderSong =? Song.id song)
                               folderSongs))
    allSongs.

(** [availableSongs.slice (0, 5)], the songs [handleAddSongs] lists. *)
Definition offeredSongs (allSongs folderSongs : list Song.t) : list Song.t :=
  take 5 (availableSongs allSongs folderSongs).

(** ** [screens/FoldersScreen.tsx]: the song counts *)




(** ** [screens/SongsScreen.tsx]: pull to refresh *)

(** [handleRefresh]: the list handed to [setAllSongs], if any. All its
    calls go through the closures of the one render the handler belongs
    to. The backend moments of the three fetches of the sync and of the
    reload are [h_songs], [h_favourites], [h_folders] and [h_reload]. *)
Definition handleRefresh (r : Render) (h_songs h_favourites h_folders h_reload : Host)
  : Async (option (list Song.t)) :=
  if isOffline r then ret None
  else
    try_catch
      (syncAllData r h_songs h_favourites h_folders ;;
       songs <- loadSongs r h_reload ;;
       ret (Some songs))
      (fun err => ret None).

(** ** [components/EditFolderModal.tsx]: renaming a folder *)




(** ** More vocabulary *)

(** An asynchronous computation that never rejects. *)
Definition resolves {A : Type} (m : Async A) : Prop :=
  forall w, exists a w', m w = (Returned a, w').

(** A result that carries its data or an error message. *)
Definition data_or_error {T : Type} (result : ApiResponse T) : Prop :=
  error result = None -> is_Some (data result).

(** The same number, whatever fraction writes it. *)
Definition same_number (a b : JS.number) : Prop :=
  match a, b with
  | JS.NaN, JS.NaN => True
  | JS.NegInfinity, JS.NegInfinity => True
  | JS.Infinity, JS.Infinity => True
  | JS.Finite x, JS.Finite y => Qeq x y
  | _, _ => False
  end.

(** The snapshot [updateCache] writes for [data] through the closures of
    [r]: the lists provided, and for the others the lists of [r]. *)
Definition snapshot (r : Render) (data : CacheData.partial) (lastUpdated : Z) : CacheData.t :=
  {| CacheData.songs := default (cachedSongs r) (CacheData.p_songs data);
     CacheData.favourites := default (cachedFavourites r) (CacheData.p_favourites data);
     CacheData.folders := default (cachedFolders r) (CacheData.p_folders data);
     CacheData.lastUpdated := lastUpdated |}.

(** [l1] is [l2] with some elements left out, in the same order. *)
Definition kept_in_order {A : Type} (l1 l2 : list A) : Prop := sublist l1 l2.

(** An operation of the hook that answers: it never rejects, what it
    returns carries its data or an error message, and it does not leave
    the loading flag on. *)
Definition answers {T : Type} (m : Async (ApiResponse T)) : Prop :=
  forall w, exists result w',
    m w = (Returned result, w')
    /\ data_or_error result
    /\ (hook_loading w = false -> hook_loading w' = false).

(** A query that did not go through: the promise rejected, or the reply
    carries an error. *)
Definition reply_failed {T : Type} (reply : outcome (PostgrestResponse T)) : Prop :=
  match reply with
  | Threw _ => True
  | Returned resp => pg_error resp <> None
  end.

(** The storage accepts the two writes of [updateCache]. *)
Definition accepts_snapshot (h : Host) : Prop :=
  setItem_rejects h STORAGE_KEYS.CACHE_DATA = None
  /\ setItem_rejects h STORAGE_KEYS.LAST_SYNC = None.

(** What a fetch of a collection does with the reply [reply] of the
    backend, for the cached list [cached] and the field [field] of the
    snapshot:
    - a failed query leaves state and storage as they were and is
      reported;
    - a reply with data [d] and no error puts [d] in the cache in place of
      what was there; when the storage accepts the snapshot the fetch
      returns [d], the cache is stamped and the snapshot written is that of
      the render with [d] for the field; when the storage rejects it the
      fetch reports an error although the cache in memory holds [d];
    - a reply with neither data nor error returns the empty list and leaves
      state and storage as they were. *)
Definition overwrites_or_leaves {T : Type} (fetch : Async (ApiResponse (list T)))
    (reply : outcome (PostgrestResponse (list T))) (cached : Render -> list T)
    (r : Render) (h : Host) (field : list T -> CacheData.partial) : Prop :=
  forall w,
    let res := fetch w in
    (reply_failed reply ->
     state (snd res) = state w /\ storage (snd res) = storage w
     /\ exists msg, fst res = Returned (mkApi None (Some msg)))
    /\ (forall d, reply = Returned (mkPg (Some d) None) ->
          cached (state (snd res)) = d
          /\ (accepts_snapshot h ->
              fst res = Returned (mkApi (Some d) None)
              /\ lastSync (state (snd res)) = Some (clock h 2)
              /\ storage (snd res) !! STORAGE_KEYS.CACHE_DATA
                 = Some (CacheDataJSON (snapshot r (field d) (clock h 0))))
          /\ (~ accepts_snapshot h ->
              exists msg, fst res = Returned (mkApi None (Some msg))))
    /\ (reply = Returned (mkPg None None) ->
        state (snd res) = state w /\ storage (snd res) = storage w
        /\ fst res = Returned (mkApi (Some []) None)).

(** The cached folders after the refresh that follows a folder mutation:
    the rows of the reply when it carries data and no error, otherwise the
    folders that were cached. *)
Definition folders_after (h : Host) (u : User.t) (w : World) : list Folder.t :=
  match select_folders (backend h) (User.id u) with
  | Returned (mkPg (Some d) None) => d
  | _ => cachedFolders (state w)
  end.

(** What a folder mutation [op] of the user [u] does, given what the
    backend made of its request: [accepted] is the value of a mutation that
    went through, [None] for one that did not; [failed] is the data of a
    failure.
    - accepted: the call returns the value with no error; one refresh of
      the folders follows the request; the cached folders are those the
      refresh leaves; a refresh that fails shows in the hook's error only;
    - not accepted: the call returns [failed] with the message, also the
      hook's error; the request is the only one sent; state and storage are
      as they were. *)
Definition mutates_folders {T : Type} (op : Async (ApiResponse T)) (request : Request)
    (accepted failed : option T) (h : Host) (u : User.t) : Prop :=
  forall w,
    let res := op w in
    match accepted with
    | Some value =>
        fst res = Returned (mkApi (Some value) None)
        /\ network (snd res) = SelectFolders (User.id u) :: request :: network w
        /\ cachedFolders (state (snd res)) = folders_after h u w
        /\ (reply_failed (select_folders (backend h) (User.id u)) ->
            state (snd res) = state w /\ storage (snd res) = storage w
            /\ exists msg, hook_error (snd res) = Some msg)
    | None =>
        (exists msg, fst res = Returned (mkApi failed (Some msg))
                     /\ hook_error (snd res) = Some msg)
        /\ network (snd res) = request :: network w
        /\ state (snd res) = state w
        /\ storage (snd res) = storage w
    end.

(** The row of a reply to [.single ()], if it carries one. *)
Definition single_row {T : Type} (reply : outcome (PostgrestSingleResponse T)) : option T :=
  match reply with
  | Returned (SingleRow data) => Some data
  | _ => None
  end.

(** [true] for a delete the backend answered without error. *)
Definition deleted (reply : outcome (option PostgrestError)) : option bool :=
  match reply with
  | Returned None => Some true
  | _ => None
  end.

(** * Properties *)

(** ** Evaluation of the asynchronous combinators *)

Ltac unfold_async :=
  unfold attempt, supabase_failed, no_user, when_defined, bind, ret, throw,
    try_catch, try_finally, Promise_all2, call,
    AsyncStorage_setItem, AsyncStorage_multiRemove,
    setCachedSongs, setCachedFavourites, setCachedFolders, setLastSync,
    setSettings, setLoading, setError, with_state, with_storage in *.

Ltac case_host :=
  repeat match goal with
         | |- context [setItem_rejects ?h ?k] =>
             let E := fresh "Hset" in destruct (setItem_rejects h k) eqn:E; simpl
         | |- context [multiRemove_rejects ?h] =>
             let E := fresh "Hrm" in destruct (multiRemove_rejects h) eqn:E; simpl
         end.

(** *** What [updateCache] does to each part of the world *)

Lemma updateCache_cachedSongs r h data w :
  cachedSongs (state (snd (updateCache r h data w)))
  = default (cachedSongs (state w)) (CacheData.p_songs data).
Proof.
  unfold updateCache; unfold_async.
  destruct data as [[s|] [f|] [d|]]; simpl; case_host; reflexivity.
Qed.

Lemma updateCache_cachedFavourites r h data w :
  cachedFavourites (state (snd (updateCache r h data w)))
  = default (cachedFavourites (state w)) (CacheData.p_favourites data).
Proof.
  unfold updateCache; unfold_async.
  destruct data as [[s|] [f|] [d|]]; simpl; case_host; reflexivity.
Qed.

Lemma updateCache_cachedFolders r h data w :
  cachedFolders (state (snd (updateCache r h data w)))
  = default (cachedFolders (state w)) (CacheData.p_folders data).
Proof.
  unfold updateCache; unfold_async.
  destruct data as [[s|] [f|] [d|]]; simpl; case_host; reflexivity.
Qed.

Lemma updateCache_frame r h data w :
  let w' := snd (updateCache r h data w) in
  user (state w') = user (state w)
  /\ settings (state w') = settings (state w)
  /\ isOffline (state w') = isOffline (state w)
  /\ hook_loading w' = hook_loading w
  /\ hook_error w' = hook_error w
  /\ network w' = network w
  /\ storage w' !! STORAGE_KEYS.SETTINGS = storage w !! STORAGE_KEYS.SETTINGS.
Proof.
  unfold updateCache; unfold_async.
  destruct data as [[s|] [f|] [d|]]; simpl; case_host;
    repeat split; try reflexivity;
    rewrite ?lookup_insert_ne; done.
Qed.

(** A resolved [updateCache] has stamped the cache with the third reading
    of the clock. *)
Lemma updateCache_resolved r h data w w' :
  updateCache r h data w = (Returned tt, w') ->
  lastSync (state w') = Some (clock h 2).
Proof.
  unfold updateCache; unfold_async.
  destruct data as [[s|] [f|] [d|]]; simpl; case_host;
    intros H; inversion H; reflexivity.
Qed.

Lemma updateCache_calls_snoc calls call w :
  updateCache_calls (calls ++ [call]) w
  = snd (updateCache call.1.1 call.1.2 call.2 (updateCache_calls calls w)).
Proof.
  unfold updateCache_calls. rewrite fold_left_app. simpl.
  destruct call as [[r h] data]. reflexivity.
Qed.

Lemma last_provided_snoc {A : Type} (field : CacheData.partial -> option A)
    calls call initial :
  last_provided field (calls ++ [call]) initial
  = default (last_provided field calls initial) (field call.2).
Proof.
  unfold last_provided. rewrite omap_app. simpl.
  destruct (field call.2) as [v|]; simpl.
  - apply last_last.
  - rewrite app_nil_r. reflexivity.
Qed.

(** C1. Whatever the sequence of [updateCache] calls, whatever render each
    call closes over and whether or not its writes to storage succeed, each
    of the cached lists [songs], [favourites] and [folders] ends with the
    last value provided for it, and with its initial value when no call
    provided one. *)
Theorem updateCache_last_write_wins
    (calls : list (Render * Host * CacheData.partial)) (w : World) :
  let w' := updateCache_calls calls w in
  cachedSongs (state w')
    = last_provided CacheData.p_songs calls (cachedSongs (state w))
  /\ cachedFavourites (state w')
    = last_provided CacheData.p_favourites calls (cachedFavourites (state w))
  /\ cachedFolders (state w')
    = last_provided CacheData.p_folders calls (cachedFolders (state w)).
Proof.
  induction calls as [|call calls IH] using rev_ind; simpl.
  - repeat split.
  - simpl in IH. destruct IH as (IHs & IHf & IHd).
    rewrite updateCache_calls_snoc, !last_provided_snoc.
    rewrite updateCache_cachedSongs, updateCache_cachedFavourites,
      updateCache_cachedFolders.
    rewrite IHs, IHf, IHd. repeat split.
Qed.

Lemma updateCache_last_write_wins_witness :
  let w := Sample.world (Some Sample.alice) Sample.songs
             [Sample.favourite_of Sample.alice 1 1] [Sample.folder_of Sample.alice 1 "Advent"]
             None in
  let stale := render w in
  let calls :=
    [(stale, Sample.device Sample.unreachable 10,
      CacheData.mkPartial (Some [Sample.holy_night]) None None);
     (stale, Sample.full_device Sample.unreachable 20,
      CacheData.mkPartial (Some [Sample.amazing_grace]) (Some []) None);
     (stale, Sample.device Sample.unreachable 30,
      CacheData.mkPartial None None None)] in
  cachedSongs (state (updateCache_calls calls w)) = [Sample.amazing_grace]
  /\ cachedFavourites (state (updateCache_calls calls w)) = []
  /\ cachedFolders (state (updateCache_calls calls w))
     = [Sample.folder_of Sample.alice 1 "Advent"].
Proof.
  cbv zeta.
  match goal with
  | |- cachedSongs (state (updateCache_calls ?calls ?w)) = _ /\ _ =>
      destruct (updateCache_last_write_wins calls w) as (Hs & Hf & Hd)
  end.
  rewrite Hs, Hf, Hd. repeat split.
Defined.

(** *** What [clearCache] and [updateSettings] do *)

Lemma clearCache_resolved h w w' :
  clearCache h w = (Returned tt, w') ->
  cachedSongs (state w') = [] /\ cachedFavourites (state w') = []
  /\ cachedFolders (state w') = [] /\ lastSync (state w') = None.
Proof.
  unfold clearCache; unfold_async. case_host; intros H; inversion H; simpl.
  repeat split.
Qed.

Lemma clearCache_frame h w :
  let w' := snd (clearCache h w) in
  user (state w') = user (state w)
  /\ settings (state w') = settings (state w)
  /\ storage w' !! STORAGE_KEYS.SETTINGS = storage w !! STORAGE_KEYS.SETTINGS.
Proof.
  unfold clearCache; unfold_async. case_host; repeat split.
  rewrite !lookup_delete_ne; done.
Qed.

Lemma updateSettings_settings r h newSettings w :
  settings (state (snd (updateSettings r h newSettings w)))
  = AppSettings.spread (settings r) newSettings.
Proof. unfold updateSettings; unfold_async. case_host; reflexivity. Qed.

Lemma updateSettings_frame r h newSettings w :
  let w' := snd (updateSettings r h newSettings w) in
  user (state w') = user (state w)
  /\ cachedSongs (state w') = cachedSongs (state w)
  /\ cachedFavourites (state w') = cachedFavourites (state w)
  /\ cachedFolders (state w') = cachedFolders (state w)
  /\ lastSync (state w') = lastSync (state w)
  /\ storage w' !! STORAGE_KEYS.CACHE_DATA = storage w !! STORAGE_KEYS.CACHE_DATA
  /\ storage w' !! STORAGE_KEYS.LAST_SYNC = storage w !! STORAGE_KEYS.LAST_SYNC.
Proof.
  unfold updateSettings; unfold_async. case_host; repeat split;
    rewrite ?lookup_insert_ne; done.
Qed.

(** C2. [isCacheExpired] is a function of the last-sync time of the render
    and the reading of the clock, whose freshness window [cacheTimeout] is
    24 hours in milliseconds. Without a last-sync time it answers [true], and so it
    does in the render that follows a resolved [clearCache]; in the render
    that follows a resolved [updateCache] it answers [false] at the instant
    of the stamp and for as long as no more than the 24 hours of
    [cacheTimeout] have passed; with a last-sync time [t] it answers [true]
    exactly when [now - t] exceeds 24 hours. *)
Theorem isCacheExpired_spec :
  APP_CONFIG.cacheTimeout = 86400000
  /\ (forall r r' now, lastSync r = lastSync r' ->
        isCacheExpired r now = isCacheExpired r' now)
  /\ (forall r now, lastSync r = None -> isCacheExpired r now = true)
  /\ (forall h w w' now,
        clearCache h w = (Returned tt, w') ->
        isCacheExpired (render w') now = true)
  /\ (forall r h data w w',
        updateCache r h data w = (Returned tt, w') ->
        isCacheExpired (render w') (clock h 2) = false
        /\ forall now, now - clock h 2 <= 24 * 60 * 60 * 1000 ->
             isCacheExpired (render w') now = false)
  /\ (forall r t now, lastSync r = Some t ->
        (isCacheExpired r now = true <-> now - t > 24 * 60 * 60 * 1000)).
Proof.
  split; [reflexivity|].
  split; [intros r r' now H; unfold isCacheExpired; rewrite H; reflexivity|].
  split; [intros r now H; unfold isCacheExpired; rewrite H; reflexivity|].
  split.
  { intros h w w' now H. apply clearCache_resolved in H as (_ & _ & _ & H).
    unfold isCacheExpired, render. rewrite H. reflexivity. }
  split.
  { intros r h data w w' H. apply updateCache_resolved in H.
    unfold isCacheExpired, render, APP_CONFIG.cacheTimeout. rewrite H.
    split; [|intros now Hnow]; rewrite Z.gtb_ltb; apply Z.ltb_ge; lia. }
  intros r t now H. unfold isCacheExpired, APP_CONFIG.cacheTimeout. rewrite H.
  rewrite Z.gtb_ltb, Z.ltb_lt. lia.
Qed.

Lemma isCacheExpired_spec_witness :
  let h := Sample.device Sample.unreachable 1000 in
  let w := Sample.world (Some Sample.alice) Sample.songs [] [] None in
  let data := CacheData.mkPartial (Some [Sample.holy_night]) None None in
  isCacheExpired (render w) 1000 = true
  /\ isCacheExpired (render (snd (clearCache h w))) 1000 = true
  /\ isCacheExpired (render (snd (updateCache (render w) h data w))) 1000 = false
  /\ isCacheExpired (render (snd (updateCache (render w) h data w))) 86401000 = false
  /\ isCacheExpired (render (snd (updateCache (render w) h data w))) 86401001 = true.
Proof.
  cbv zeta.
  destruct isCacheExpired_spec as (_ & _ & Hnone & Hclear & Hupdate & Hwindow).
  split; [apply Hnone; reflexivity|].
  split; [apply (Hclear (Sample.device Sample.unreachable 1000)
                        (Sample.world (Some Sample.alice) Sample.songs [] [] None));
          reflexivity|].
  pose proof (Hupdate
    (render (Sample.world (Some Sample.alice) Sample.songs [] [] None))
    (Sample.device Sample.unreachable 1000)
    (CacheData.mkPartial (Some [Sample.holy_night]) None None)
    (Sample.world (Some Sample.alice) Sample.songs [] [] None)
    _ eq_refl) as [Hnow Hlater].
  split; [exact Hnow|].
  split; [apply Hlater; simpl; lia|].
  apply (Hwindow _ 1000); [reflexivity | lia].
Defined.

(** C5. Without an authenticated user [getFavourites] and [getFolders]
    return the empty list; with user [u] they return the cached rows whose
    [user_id] is [u.id], in cache order, and no row of another user. *)
Theorem getters_scoped_to_user (r : Render) :
  (user r = None -> getFavourites r = [] /\ getFolders r = [])
  /\ (forall u, user r = Some u ->
        (forall fav, In fav (getFavourites r) <->
                     In fav (cachedFavourites r) /\ Favourite.user_id fav = User.id u)
        /\ (forall folder, In folder (getFolders r) <->
                     In folder (cachedFolders r) /\ Folder.user_id folder = User.id u)
        /\ getFavourites r
           = List.filter (fun fav => String.eqb (Favourite.user_id fav) (User.id u))
                         (cachedFavourites r)
        /\ getFolders r
           = List.filter (fun folder => String.eqb (Folder.user_id folder) (User.id u))
                         (cachedFolders r)).
Proof.
  unfold getFavourites, getFolders. split.
  - intros ->. split; reflexivity.
  - intros u ->.
    split; [|split; [|split; reflexivity]];
      intros x; rewrite filter_In, String.eqb_eq; reflexivity.
Qed.

Lemma getters_scoped_to_user_witness :
  let favs := [Sample.favourite_of Sample.alice 1 1; Sample.favourite_of Sample.bob 2 1;
               Sample.favourite_of Sample.alice 3 2] in
  let folders := [Sample.folder_of Sample.bob 1 "Advent";
                  Sample.folder_of Sample.alice 2 "Easter"] in
  (getFavourites (render (Sample.world None Sample.songs favs folders None)) = []
   /\ getFolders (render (Sample.world None Sample.songs favs folders None)) = [])
  /\ getFavourites (render (Sample.world (Some Sample.alice) Sample.songs favs folders None))
     = [Sample.favourite_of Sample.alice 1 1; Sample.favourite_of Sample.alice 3 2]
  /\ getFolders (render (Sample.world (Some Sample.alice) Sample.songs favs folders None))
     = [Sample.folder_of Sample.alice 2 "Easter"]
  /\ ~ In (Sample.favourite_of Sample.bob 2 1)
          (getFavourites
             (render (Sample.world (Some Sample.alice) Sample.songs favs folders None))).
Proof.
  cbv zeta. split.
  - apply getters_scoped_to_user. reflexivity.
  - match goal with
    | |- getFavourites ?r = _ /\ _ =>
        destruct (getters_scoped_to_user r) as [_ H];
        destruct (H Sample.alice eq_refl) as (Hin & _ & Hfav & Hfol)
    end.
    split; [rewrite Hfav; reflexivity|].
    split; [rewrite Hfol; reflexivity|].
    intros Hbob. apply Hin in Hbob as [_ Hid]. discriminate Hid.
Defined.

(** C8. The settings and the cache live under different storage keys and
    in different state cells. [updateSettings], [toggleTheme] and
    [updateFontSize] leave the three cached lists, the last-sync time and
    what is stored under the cache keys as they were; [updateCache] and
    [clearCache] leave the settings and what is stored under the settings
    key as they were. This holds whether or not the storage accepts the
    write. *)
Theorem settings_and_cache_independent (r : Render) (h : Host) (w : World) :
  let untouched_cache (w' : World) :=
    cachedSongs (state w') = cachedSongs (state w)
    /\ cachedFavourites (state w') = cachedFavourites (state w)
    /\ cachedFolders (state w') = cachedFolders (state w)
    /\ storage w' !! STORAGE_KEYS.CACHE_DATA = storage w !! STORAGE_KEYS.CACHE_DATA
    /\ storage w' !! STORAGE_KEYS.LAST_SYNC = storage w !! STORAGE_KEYS.LAST_SYNC in
  let untouched_settings (w' : World) :=
    settings (state w') = settings (state w)
    /\ storage w' !! STORAGE_KEYS.SETTINGS = storage w !! STORAGE_KEYS.SETTINGS in
  (forall newSettings, untouched_cache (snd (updateSettings r h newSettings w)))
  /\ untouched_cache (snd (toggleTheme r h w))
  /\ (forall size, untouched_cache (snd (updateFontSize r h size w)))
  /\ (forall data, untouched_settings (snd (updateCache r h data w)))
  /\ untouched_settings (snd (clearCache h w))
  /\ STORAGE_KEYS.SETTINGS <> STORAGE_KEYS.CACHE_DATA
  /\ STORAGE_KEYS.SETTINGS <> STORAGE_KEYS.LAST_SYNC.
Proof.
  cbv zeta.
  assert (Hs : forall newSettings,
    let w' := snd (updateSettings r h newSettings w) in
    cachedSongs (state w') = cachedSongs (state w)
    /\ cachedFavourites (state w') = cachedFavourites (state w)
    /\ cachedFolders (state w') = cachedFolders (state w)
    /\ storage w' !! STORAGE_KEYS.CACHE_DATA = storage w !! STORAGE_KEYS.CACHE_DATA
    /\ storage w' !! STORAGE_KEYS.LAST_SYNC = storage w !! STORAGE_KEYS.LAST_SYNC).
  { intros newSettings.
    pose proof (updateSettings_frame r h newSettings w) as H. simpl in *.
    tauto. }
  split; [exact Hs|].
  split; [apply Hs|].
  split; [intros size; apply Hs|].
  split.
  { intros data. pose proof (updateCache_frame r h data w) as H. simpl in H. tauto. }
  split.
  { pose proof (clearCache_frame h w) as H. simpl in H. tauto. }
  split; discriminate.
Qed.

Lemma settings_and_cache_independent_witness :
  let w := Sample.world (Some Sample.alice) Sample.songs
             [Sample.favourite_of Sample.alice 1 1] [] (Some 5) in
  let h := Sample.device Sample.unreachable 10 in
  cachedSongs (state (snd (toggleTheme (render w) h w))) = Sample.songs
  /\ storage (snd (toggleTheme (render w) h w)) !! STORAGE_KEYS.CACHE_DATA = None
  /\ settings (state (snd (clearCache h w))) = Sample.default_settings
  /\ settings (state (snd (updateCache (render w) h
                             (CacheData.mkPartial (Some []) None None) w)))
     = Sample.default_settings.
Proof.
  cbv zeta.
  match goal with
  | |- cachedSongs (state (snd (toggleTheme ?r ?h ?w))) = _ /\ _ =>
      destruct (settings_and_cache_independent r h w)
        as (_ & (Hsongs & _ & _ & Hblob & _) & _ & Hupdate & (Hclear & _) & _)
  end.
  split; [exact Hsongs|]. split; [rewrite Hblob; reflexivity|].
  split; [exact Hclear|].
  apply Hupdate.
Defined.

(** *** Clamping *)

Lemma Qle_bool_false (x y : Q) : Qle_bool x y = false -> (y <= x)%Q.
Proof.
  intros H. destruct (Qlt_le_dec y x) as [Hlt|Hle].
  - apply Qlt_le_weak, Hlt.
  - apply Qle_bool_iff in Hle. congruence.
Qed.

Lemma clamp_in_range (size : JS.number) :
  size <> JS.NaN ->
  JS.number_le (JS.of_Z 12) (JS.Math_max (JS.of_Z 12) (JS.Math_min (JS.of_Z 32) size))
  /\ JS.number_le (JS.Math_max (JS.of_Z 12) (JS.Math_min (JS.of_Z 32) size)) (JS.of_Z 32).
Proof.
  intros Hnan. destruct size as [| |q|]; [congruence| | |].
  - simpl. split; [apply Qle_refl | discriminate].
  - unfold JS.Math_min, JS.of_Z.
    destruct (Qle_bool (inject_Z 32) q) eqn:H32; unfold JS.Math_max.
    + simpl. split; [discriminate | apply Qle_refl].
    + destruct (Qle_bool (inject_Z 12) q) eqn:H12; simpl.
      * split; [apply Qle_bool_iff, H12 | apply Qle_bool_false, H32].
      * split; [apply Qle_refl | discriminate].
  - simpl. split; [discriminate | apply Qle_refl].
Qed.



(** ** The remote accessor *)

(** C10. [getFolderSongCount] always resolves, with a number, after one
    count request, and touches neither the error state of the hook nor the
    cache. When the request fails (the promise rejects or the reply carries
    an error) the number is 0, and the call leaves exactly what a backend
    answering with a count of 0 leaves: the two cannot be told apart. A
    reply without error yields its count (0 for a null count). *)
Theorem getFolderSongCount_never_fails (h : Host) (folderId : Z) (w : World) :
  (exists n, getFolderSongCount h folderId w
             = (Returned n, sent (CountFolderSongs folderId) w))
  /\ (count_failed (count_folder_songs (backend h) folderId) ->
      getFolderSongCount h folderId w = (Returned 0, sent (CountFolderSongs folderId) w))
  /\ (forall h',
        count_failed (count_folder_songs (backend h) folderId) ->
        count_folder_songs (backend h') folderId = Returned (mkPgCount (Some 0) None) ->
        getFolderSongCount h folderId w = getFolderSongCount h' folderId w)
  /\ (forall count,
        count_folder_songs (backend h) folderId = Returned (mkPgCount count None) ->
        getFolderSongCount h folderId w
        = (Returned (default 0 count), sent (CountFolderSongs folderId) w)).
Proof.
  unfold getFolderSongCount, count_failed, sent; unfold_async.
  split; [|split; [|split]].
  - destruct (count_folder_songs (backend h) folderId) as [[c [e|]]|e]; simpl; eauto.
  - destruct (count_folder_songs (backend h) folderId) as [[c [e|]]|e]; simpl;
      intros H; try reflexivity. contradiction H; reflexivity.
  - intros h' H ->. simpl.
    destruct (count_folder_songs (backend h) folderId) as [[c [e|]]|e]; simpl in *;
      try reflexivity. contradiction H; reflexivity.
  - intros count ->. reflexivity.
Qed.

Lemma getFolderSongCount_never_fails_witness :
  let w := Sample.world (Some Sample.alice) Sample.songs [] [] None in
  let failing :=
    Sample.device
      (Sample.scripted Sample.rejected (fun _ _ => Sample.rejected) Sample.rejected
         (fun _ _ => Sample.rejected) Sample.rejected (fun _ _ => Sample.rejected)
         (Returned (mkPgCount None (Some (mkPgError "permission denied"))))) 0 in
  let empty :=
    Sample.device
      (Sample.scripted Sample.rejected (fun _ _ => Sample.rejected) Sample.rejected
         (fun _ _ => Sample.rejected) Sample.rejected (fun _ _ => Sample.rejected)
         (Returned (mkPgCount (Some 0) None))) 0 in
  getFolderSongCount failing 7 w = (Returned 0, sent (CountFolderSongs 7) w)
  /\ getFolderSongCount failing 7 w = getFolderSongCount empty 7 w.
Proof.
  cbv zeta.
  match goal with
  | |- getFolderSongCount ?failing ?f ?w = _ /\ _ = getFolderSongCount ?empty _ _ =>
      destruct (getFolderSongCount_never_fails failing f w) as (_ & Hzero & Hsame & _);
      split; [apply Hzero | apply (Hsame empty)]
  end; simpl; (discriminate || reflexivity).
Defined.

(** The link operations do not look at the user: the request goes out. *)
Lemma link_operations_send (h : Host) (songId folderId : Z) (w : World) :
  network (snd (addSongToFolder h songId folderId w))
    = InsertSongFolder songId folderId :: network w
  /\ network (snd (removeSongFromFolder h songId folderId w))
    = DeleteSongFolder songId folderId :: network w
  /\ network (snd (getFolderSongs h folderId w))
    = SelectFolderSongs folderId :: network w
  /\ network (snd (getFolderSongCount h folderId w))
    = CountFolderSongs folderId :: network w.
Proof.
  unfold addSongToFolder, removeSongFromFolder, getFolderSongs, getFolderSongCount;
    unfold_async.
  repeat split.
  - destruct (insert_song_folder (backend h) songId folderId) as [[row|err]|e]; reflexivity.
  - destruct (delete_song_folder (backend h) songId folderId) as [[err|]|e]; reflexivity.
  - destruct (select_folder_songs (backend h) folderId) as [[d [err|]]|e]; reflexivity.
  - destruct (count_folder_songs (backend h) folderId) as [[c [err|]]|e]; reflexivity.
Qed.

(** C6, as the code has it. Without an authenticated user the operations on
    favourites (fetch, add, remove) and on folders (fetch, create, update,
    delete) resolve at once with the error ["No user found"] and leave the
    world as it was: no request is sent, cache, storage and hook state are
    unchanged. The song-folder link operations take no user: they send
    their request whoever is or is not signed in. *)
Theorem user_scoped_operations_fail_fast (r : Render) (h : Host) (w : World) :
  user r = None ->
  fetchFavourites r h w = (Returned (mkApi (Some []) (Some "No user found")), w)
  /\ (forall songId,
        addFavourite r h songId w = (Returned (mkApi None (Some "No user found")), w))
  /\ (forall songId,
        removeFavourite r h songId w
        = (Returned (mkApi (Some false) (Some "No user found")), w))
  /\ fetchFolders r h w = (Returned (mkApi (Some []) (Some "No user found")), w)
  /\ (forall name,
        createFolder r h name w = (Returned (mkApi None (Some "No user found")), w))
  /\ (forall id name,
        updateFolder r h id name w = (Returned (mkApi None (Some "No user found")), w))
  /\ (forall id,
        deleteFolder r h id w = (Returned (mkApi (Some false) (Some "No user found")), w))
  /\ (forall songId folderId,
        network (snd (addSongToFolder h songId folderId w))
          = InsertSongFolder songId folderId :: network w
        /\ network (snd (removeSongFromFolder h songId folderId w))
          = DeleteSongFolder songId folderId :: network w
        /\ network (snd (getFolderSongs h folderId w))
          = SelectFolderSongs folderId :: network w).
Proof.
  intros Hnone.
  unfold fetchFavourites, addFavourite, removeFavourite, fetchFolders, createFolder,
    updateFolder, deleteFolder.
  rewrite Hnone. unfold no_user, ret.
  do 7 (split; [reflexivity|]).
  intros songId folderId.
  destruct (link_operations_send h songId folderId w) as (Hadd & Hremove & Hsongs & _).
  auto.
Qed.

Lemma user_scoped_operations_fail_fast_witness :
  let w := Sample.world None Sample.songs [Sample.favourite_of Sample.alice 1 1] [] None in
  let h := Sample.device (Sample.serving Sample.songs) 0 in
  fetchFavourites (render w) h w = (Returned (mkApi (Some []) (Some "No user found")), w)
  /\ createFolder (render w) h "Advent" w
     = (Returned (mkApi None (Some "No user found")), w).
Proof.
  cbv zeta.
  pose proof (user_scoped_operations_fail_fast
    (render (Sample.world None Sample.songs [Sample.favourite_of Sample.alice 1 1] [] None))
    (Sample.device (Sample.serving Sample.songs) 0)
    (Sample.world None Sample.songs [Sample.favourite_of Sample.alice 1 1] [] None)
    eq_refl) as (Hfav & _ & _ & _ & Hcreate & _).
  split; [exact Hfav | apply Hcreate].
Defined.

(** C6, as the claim states it, fails for the link operations: signed out,
    [addSongToFolder] sends its insert and returns the new row without any
    error. *)
Lemma addSongToFolder_signed_out :
  let w := Sample.world None Sample.songs [] [] None in
  let link := SongFolder.mk (Some 5) 1 7 None None in
  let h :=
    Sample.device
      (Sample.scripted Sample.rejected (fun _ _ => Sample.rejected) Sample.rejected
         (fun _ _ => Sample.rejected) Sample.rejected
         (fun _ _ => Returned (SingleRow link)) Sample.rejected) 0 in
  user (state w) = None
  /\ fst (addSongToFolder h 1 7 w) = Returned (mkApi (Some link) None)
  /\ network (snd (addSongToFolder h 1 7 w)) = [InsertSongFolder 1 7]
  /\ ~ ((exists d, fst (addSongToFolder h 1 7 w)
                    = Returned (mkApi d (Some "No user found")))
        /\ network (snd (addSongToFolder h 1 7 w)) = network w).
Proof.
  cbv zeta. split; [reflexivity|]. split; [reflexivity|]. split; [reflexivity|].
  intros [_ H]. discriminate H.
Qed.

(** *** The three fetches and [syncAllData] *)

(** What a fetch returns is decided by the render and the host alone. *)
Lemma fetchSongs_result r h w w' : fst (fetchSongs r h w) = fst (fetchSongs r h w').
Proof.
  unfold fetchSongs, updateCache; unfold_async.
  destruct (select_songs (backend h)) as [[[d|] [e|]]|e]; simpl; case_host; reflexivity.
Qed.

Lemma fetchFavourites_result r h w w' :
  fst (fetchFavourites r h w) = fst (fetchFavourites r h w').
Proof.
  unfold fetchFavourites, updateCache; unfold_async.
  destruct (user r) as [u|]; [|reflexivity].
  destruct (select_favourites (backend h) (User.id u)) as [[[d|] [e|]]|e]; simpl;
    case_host; reflexivity.
Qed.

Lemma fetchFolders_result r h w w' : fst (fetchFolders r h w) = fst (fetchFolders r h w').
Proof.
  unfold fetchFolders, updateCache; unfold_async.
  destruct (user r) as [u|]; [|reflexivity].
  destruct (select_folders (backend h) (User.id u)) as [[[d|] [e|]]|e]; simpl;
    case_host; reflexivity.
Qed.

(** The fetches never reject: every failure is turned into a result. *)
Lemma fetchSongs_resolves r h w : exists res, fst (fetchSongs r h w) = Returned res.
Proof.
  unfold fetchSongs, updateCache; unfold_async.
  destruct (select_songs (backend h)) as [[[d|] [e|]]|e]; simpl; case_host; eauto.
Qed.

Lemma fetchFavourites_resolves r h w :
  exists res, fst (fetchFavourites r h w) = Returned res.
Proof.
  unfold fetchFavourites, updateCache; unfold_async.
  destruct (user r) as [u|]; [|eauto].
  destruct (select_favourites (backend h) (User.id u)) as [[[d|] [e|]]|e]; simpl;
    case_host; eauto.
Qed.

Lemma fetchFolders_resolves r h w : exists res, fst (fetchFolders r h w) = Returned res.
Proof.
  unfold fetchFolders, updateCache; unfold_async.
  destruct (user r) as [u|]; [|eauto].
  destruct (select_folders (backend h) (User.id u)) as [[[d|] [e|]]|e]; simpl;
    case_host; eauto.
Qed.

Lemma fst_of_pair {A B : Type} (p : A * B) (a : A) (b : B) : p = (a, b) -> fst p = a.
Proof. intros ->. reflexivity. Qed.

(** [syncAllData] in terms of the three results. *)
Lemma syncAllData_result r h1 h2 h3 w songsResult favouritesResult foldersResult :
  fst (fetchSongs r h1 w) = Returned songsResult ->
  fst (fetchFavourites r h2 w) = Returned favouritesResult ->
  fst (fetchFolders r h3 w) = Returned foldersResult ->
  fst (syncAllData r h1 h2 h3 w)
  = Returned
      (if Boolean (error songsResult) || Boolean (error favouritesResult)
          || Boolean (error foldersResult)
       then
         let errors :=
           JS.join ", "
             (filter_Boolean
                [error songsResult; error favouritesResult; error foldersResult]) in
         mkApi (Some false) (Some errors)
       else mkApi (Some true) None).
Proof.
  intros Hs Hf Hd.
  unfold syncAllData; unfold_async.
  match goal with
  | |- context [fetchSongs r h1 ?w0] =>
      rewrite (fetchSongs_result r h1 w w0) in Hs;
      destruct (fetchSongs r h1 w0) as [o1 w1]
  end.
  simpl in Hs. subst o1.
  match goal with
  | |- context [fetchFavourites r h2 ?w0] =>
      rewrite (fetchFavourites_result r h2 w w0) in Hf;
      destruct (fetchFavourites r h2 w0) as [o2 w2]
  end.
  simpl in Hf. subst o2.
  match goal with
  | |- context [fetchFolders r h3 ?w0] =>
      rewrite (fetchFolders_result r h3 w w0) in Hd;
      destruct (fetchFolders r h3 w0) as [o3 w3]
  end.
  simpl in Hd. subst o3.
  destruct (Boolean (error songsResult) || Boolean (error favouritesResult)
            || Boolean (error foldersResult)); reflexivity.
Qed.

(** When no failure comes with an empty message, [syncAllData] does what
    is asked of it: with [reasons] the errors of the fetches that failed, in
    the order songs, favourites, folders, it reports success when there is
    none and otherwise fails with the reasons joined by [", "]. *)
Lemma syncAllData_nonempty_messages r h1 h2 h3 w
    songsResult favouritesResult foldersResult :
  fst (fetchSongs r h1 w) = Returned songsResult ->
  fst (fetchFavourites r h2 w) = Returned favouritesResult ->
  fst (fetchFolders r h3 w) = Returned foldersResult ->
  error songsResult <> Some EmptyString ->
  error favouritesResult <> Some EmptyString ->
  error foldersResult <> Some EmptyString ->
  let reasons :=
    omap (fun e : option string => e)
         [error songsResult; error favouritesResult; error foldersResult] in
  fst (syncAllData r h1 h2 h3 w)
  = Returned (match reasons with
              | [] => mkApi (Some true) None
              | _ :: _ => mkApi (Some false) (Some (JS.join ", " reasons))
              end)
  /\ (fst (syncAllData r h1 h2 h3 w) = Returned (mkApi (Some true) None)
      <-> succeeded songsResult /\ succeeded favouritesResult
          /\ succeeded foldersResult).
Proof.
  intros Hs Hf Hd Es Ef Ed.
  rewrite (syncAllData_result _ _ _ _ _ _ _ _ Hs Hf Hd).
  unfold succeeded.
  destruct (error songsResult) as [[|c1 s1]|]; [congruence| |];
    destruct (error favouritesResult) as [[|c2 s2]|]; try congruence;
    destruct (error foldersResult) as [[|c3 s3]|]; try congruence;
    simpl; (split; [reflexivity|]); split; intros H;
    try discriminate; try (destruct H as (? & ? & ?); discriminate); auto.
Qed.

(** C7, where the code departs from the claim. The songs fetch fails with
    an error whose message is the empty string (the backend client builds
    [{ message: body }] from the body of a failed response, and the body
    can be empty) while favourites and folders are fetched; the result of
    [fetchSongs] carries the error [""], and [syncAllData], which tests the
    three errors for truthiness, returns [{ data: true, error: null }]. *)
Theorem syncAllData_empty_message_reports_success :
  let w := Sample.world (Some Sample.alice) [] [] [] None in
  let r := render w in
  let songs_down :=
    Sample.device
      (Sample.scripted (Returned (mkPg None (Some (mkPgError ""))))
         (fun _ _ => Sample.rejected) Sample.rejected (fun _ _ => Sample.rejected)
         Sample.rejected (fun _ _ => Sample.rejected) Sample.rejected) 0 in
  let up :=
    Sample.device
      (Sample.scripted Sample.rejected (fun _ _ => Sample.rejected)
         (Returned (mkPg (Some []) None)) (fun _ _ => Sample.rejected)
         (Returned (mkPg (Some []) None)) (fun _ _ => Sample.rejected)
         Sample.rejected) 0 in
  fst (fetchSongs r songs_down w) = Returned (mkApi None (Some ""))
  /\ ~ succeeded (mkApi (@None (list Song.t)) (Some ""))
  /\ fst (syncAllData r songs_down up up w) = Returned (mkApi (Some true) None).
Proof.
  cbv zeta. split; [reflexivity|]. split; [discriminate|]. reflexivity.
Qed.

(** *** [addFavourite] *)


Lemma same_favourite_key u songId fav :
  same_favourite u songId fav = true <-> favourite_key fav = (User.id u, songId).
Proof.
  unfold same_favourite, favourite_key.
  rewrite andb_true_iff, Z.eqb_eq, String.eqb_eq.
  split; [intros [-> ->]; reflexivity | intros H; inversion H; auto].
Qed.



(** The three ways one [addFavourite] of a signed-in user can go: the
    favourite is already cached; the backend inserted it and it was
    appended to the cache (the call fails all the same when storage rejects
    the snapshot); the backend did not insert it. *)
Lemma addFavourite_cases r h songId w u :
  user r = Some u ->
  let res := addFavourite r h songId w in
  user (state (snd res)) = user (state w)
  /\ ((exists existingFav,
         List.find (same_favourite u songId) (cachedFavourites r) = Some existingFav
         /\ fst res = Returned (mkApi (Some existingFav) None)
         /\ cachedFavourites (state (snd res)) = cachedFavourites (state w)
         /\ network (snd res) = network w)
      \/ (List.find (same_favourite u songId) (cachedFavourites r) = None
          /\ exists row,
               insert_favourite (backend h) (User.id u) songId = Returned (SingleRow row)
               /\ cachedFavourites (state (snd res)) = (cachedFavourites r ++ [row])%list
               /\ (fst res = Returned (mkApi (Some row) None)
                   \/ exists msg, fst res = Returned (mkApi None (Some msg))))
      \/ (List.find (same_favourite u songId) (cachedFavourites r) = None
          /\ cachedFavourites (state (snd res)) = cachedFavourites (state w)
          /\ exists msg, fst res = Returned (mkApi None (Some msg)))).
Proof.
  intros Hu. unfold addFavourite. rewrite Hu. unfold updateCache; unfold_async.
  destruct (List.find (same_favourite u songId) (cachedFavourites r)) as [e|] eqn:Hfind;
    simpl.
  - split; [reflexivity|]. left. exists e. auto.
  - destruct (insert_favourite (backend h) (User.id u) songId) as [[row|err]|exn] eqn:Hins;
      simpl.
    + case_host; (split; [reflexivity|]); right; left;
        (split; [reflexivity|]); exists row; eauto 6.
    + split; [reflexivity|]. right; right. eauto.
    + split; [reflexivity|]. right; right. eauto.
Qed.



(** ** Searching songs *)

(** *** Characters and strings *)


Lemma lower_char_class (c : ascii) :
  JS.is_white (JS.lower_char c) = JS.is_white c
  /\ JS.is_digit (JS.lower_char c) = JS.is_digit c.
Proof. destruct c as [[] [] [] [] [] [] [] []]; vm_compute; split; reflexivity. Qed.


Lemma all_digits_toLowerCase (s : string) :
  JS.all_digits (JS.toLowerCase s) = JS.all_digits s.
Proof.
  induction s as [|c s IH]; simpl; [reflexivity|].
  destruct (lower_char_class c) as [_ ->]. rewrite IH. reflexivity.
Qed.

Lemma truthy_toLowerCase (s : string) : JS.truthy (JS.toLowerCase s) = JS.truthy s.
Proof. destruct s; reflexivity. Qed.

Lemma test_digits_toLowerCase (s : string) :
  JS.test_digits (JS.toLowerCase s) = JS.test_digits s.
Proof.
  unfold JS.test_digits. rewrite truthy_toLowerCase, all_digits_toLowerCase. reflexivity.
Qed.

Lemma trimStart_toLowerCase (s : string) :
  JS.trimStart (JS.toLowerCase s) = JS.toLowerCase (JS.trimStart s).
Proof.
  induction s as [|c s IH]; simpl; [reflexivity|].
  destruct (lower_char_class c) as [-> _].
  destruct (JS.is_white c); [exact IH | reflexivity].
Qed.

Lemma trimEnd_toLowerCase (s : string) :
  JS.trimEnd (JS.toLowerCase s) = JS.toLowerCase (JS.trimEnd s).
Proof.
  induction s as [|c s IH]; simpl; [reflexivity|].
  rewrite IH. destruct (lower_char_class c) as [-> _].
  destruct (JS.trimEnd s) as [|d t]; simpl; [|reflexivity].
  destruct (JS.is_white c); reflexivity.
Qed.

(** Lower-casing and trimming commute. *)
Lemma trim_toLowerCase (s : string) :
  JS.trim (JS.toLowerCase s) = JS.toLowerCase (JS.trim s).
Proof. unfold JS.trim. rewrite trimStart_toLowerCase, trimEnd_toLowerCase. reflexivity. Qed.





(** *** Sorting does not change what is in the list *)



Lemma sort_Permutation {A : Type} (compare : A -> A -> Z) (l : list A) :
  Permutation (JS.sort compare l) l.
Proof.
  unfold JS.sort. induction l as [|x l IH]; simpl; [constructor|].
  transitivity (x :: foldr (JS.insert_sorted compare) [] l); [|constructor; exact IH].
  generalize (foldr (JS.insert_sorted compare) [] l). clear.
  intros l. induction l as [|z l IH]; simpl; [reflexivity|].
  destruct (compare x z <=? 0); [reflexivity|].
  rewrite IH. apply perm_swap.
Qed.

(** *** The filter of the Songs screen *)


Lemma truthy_nonempty (s : string) : JS.truthy s = true <-> s <> EmptyString.
Proof. destruct s; simpl; split; congruence. Qed.



(** *** The filter the accessor sends *)










(** The scenario of the specification, on the Songs screen. *)
Example filteredSongs_one :
  filteredSongs Sample.collate Sample.songs "1" = [Sample.amazing_grace; Sample.holy_night].
Proof. reflexivity. Qed.

Example filteredSongs_grace :
  filteredSongs Sample.collate Sample.songs " GRACE" = [Sample.amazing_grace].
Proof. reflexivity. Qed.

Example filteredSongs_twelve :
  filteredSongs Sample.collate Sample.songs "12" = [Sample.holy_night].
Proof. reflexivity. Qed.




(** ** Runs of the accessor on concrete worlds *)

(** A fetch of the songs fills the cache, stamps it and persists the
    snapshot; the lists not fetched are persisted as the render has them. *)
Example fetchSongs_run :
  let w := Sample.world (Some Sample.alice) [] [Sample.favourite_of Sample.alice 1 1] []
             None in
  let res := fetchSongs (render w) (Sample.device (Sample.serving Sample.songs) 7) w in
  fst res = Returned (mkApi (Some Sample.songs) None)
  /\ cachedSongs (state (snd res)) = Sample.songs
  /\ lastSync (state (snd res)) = Some 7
  /\ storage (snd res) !! STORAGE_KEYS.CACHE_DATA
     = Some (CacheDataJSON
               (CacheData.mk Sample.songs [Sample.favourite_of Sample.alice 1 1] [] 7))
  /\ storage (snd res) !! STORAGE_KEYS.LAST_SYNC = Some (ISOString 7)
  /\ network (snd res) = [SelectSongs]
  /\ hook_loading (snd res) = false.
Proof. cbv zeta. repeat split; vm_compute; reflexivity. Qed.

(** When the storage is full the fetch reports the failure, yet the cache
    in memory already holds the songs. *)
Example fetchSongs_storage_full :
  let w := Sample.world (Some Sample.alice) [] [] [] None in
  let res := fetchSongs (render w) (Sample.full_device (Sample.serving Sample.songs) 7) w in
  fst res = Returned (mkApi None (Some "database or disk is full"))
  /\ cachedSongs (state (snd res)) = Sample.songs
  /\ lastSync (state (snd res)) = None
  /\ hook_error (snd res) = Some "database or disk is full".
Proof. cbv zeta. repeat split; vm_compute; reflexivity. Qed.

(** Two calls of [addFavourite] through the closures of one and the same
    render: the second does not see the row the first one cached, and
    sends the insert again. *)
Example addFavourite_stale_closure :
  let inserting :=
    Sample.device
      (Sample.scripted Sample.rejected (fun _ _ => Sample.rejected) Sample.rejected
         (fun uid sid => Returned (SingleRow (Favourite.mk (Some 10) uid sid None None)))
         Sample.rejected (fun _ _ => Sample.rejected) Sample.rejected) 0 in
  let w := Sample.world (Some Sample.alice) Sample.songs [] [] None in
  let stale := render w in
  let first := addFavourite stale inserting 1 w in
  let second := addFavourite stale inserting 1 (snd first) in
  network (snd second) = [InsertFavourite "a11ce" 1; InsertFavourite "a11ce" 1].
Proof. reflexivity. Qed.

(** Signed out, [syncAllData] fails with the two "No user found" of the
    user-scoped fetches. *)
Example syncAllData_signed_out :
  let w := Sample.world None [] [] [] None in
  let up := Sample.device (Sample.serving Sample.songs) 0 in
  fst (syncAllData (render w) up up up w)
  = Returned (mkApi (Some false) (Some "No user found, No user found")).
Proof. reflexivity. Qed.

(** All three fetches fail: the three reasons, in the order songs,
    favourites, folders. *)
Example syncAllData_offline :
  let w := Sample.world (Some Sample.alice) [] [] [] None in
  let down := Sample.device Sample.unreachable 0 in
  let denied :=
    Sample.device
      (Sample.scripted Sample.rejected (fun _ _ => Sample.rejected)
         (Returned (mkPg None (Some (mkPgError "permission denied"))))
         (fun _ _ => Sample.rejected) Sample.rejected (fun _ _ => Sample.rejected)
         Sample.rejected) 0 in
  fst (syncAllData (render w) down denied down w)
  = Returned (mkApi (Some false)
       (Some "Network request failed, permission denied, Network request failed")).
Proof. reflexivity. Qed.

(** * More of the code *)

(** ** Settings read back at start-up *)

Lemma number_or_not_NaN (x : option JS.number) :
  number_or x (JS.of_Z 16) <> JS.NaN.
Proof.
  destruct x as [[| |q|]|]; simpl; try discriminate.
  destruct (Qeq_bool q 0); discriminate.
Qed.

Lemma Math_max_12 (a : JS.number) :
  a <> JS.NaN ->
  JS.Math_max a (JS.of_Z 12) <> JS.NaN
  /\ JS.number_le (JS.of_Z 12) (JS.Math_max a (JS.of_Z 12)).
Proof.
  intros Ha. destruct a as [| |q|]; [congruence| | |]; simpl.
  - split; [discriminate | apply Qle_refl].
  - destruct (Qle_bool q (inject_Z 12)) eqn:H; simpl.
    + split; [discriminate | apply Qle_refl].
    + split; [discriminate | apply Qle_bool_false, H].
  - split; [discriminate | exact I].
Qed.

Lemma same_number_refl (a : JS.number) : same_number a a.
Proof. destruct a; simpl; auto. apply Qeq_refl. Qed.

Lemma number_or_at_least_12 (x : JS.number) :
  JS.number_le (JS.of_Z 12) x ->
  same_number (JS.Math_max (number_or (Some x) (JS.of_Z 16)) (JS.of_Z 12)) x.
Proof.
  destruct x as [| |q|]; simpl; try contradiction; [|auto].
  intros Hq.
  assert (Hnz : Qeq_bool q 0 = false).
  { destruct (Qeq_bool q 0) eqn:E; [|reflexivity].
    apply Qeq_bool_iff in E. rewrite E in Hq.
    exfalso. revert Hq. apply Qlt_not_le. reflexivity. }
  rewrite Hnz. simpl.
  destruct (Qle_bool q (inject_Z 12)) eqn:H; simpl.
  - apply Qle_bool_iff in H. apply Qle_antisym; assumption.
  - apply Qeq_refl.
Qed.

(** X1. Whatever settings object is read back, [ensureValidSettings]
    yields a font size that is a number and at least 12, and keeps theme
    and auto-sync. A font size that is missing ([null]), [NaN] or zero
    becomes 16; one that is already at least 12 is kept; so the function
    changes nothing when applied a second time. The size the screens
    draw with, [currentFontSize], is a number of at least 12 for every
    state of the settings. There is no upper bound: a stored 100 stays. *)
Theorem ensureValidSettings_valid (loaded : LoadedSettings.t) :
  let s := ensureValidSettings loaded in
  (AppSettings.fontSize s <> JS.NaN
   /\ JS.number_le (JS.of_Z 12) (AppSettings.fontSize s))
  /\ AppSettings.theme s = LoadedSettings.theme loaded
  /\ AppSettings.autoSync s = LoadedSettings.autoSync loaded
  /\ (LoadedSettings.fontSize loaded = None
      \/ LoadedSettings.fontSize loaded = Some JS.NaN
      \/ LoadedSettings.fontSize loaded = Some (JS.of_Z 0) ->
      AppSettings.fontSize s = JS.of_Z 16)
  /\ (forall x, LoadedSettings.fontSize loaded = Some x ->
        JS.number_le (JS.of_Z 12) x -> same_number (AppSettings.fontSize s) x)
  /\ same_number
       (AppSettings.fontSize (ensureValidSettings (LoadedSettings.of_settings s)))
       (AppSettings.fontSize s)
  /\ (forall r, currentFontSize r <> JS.NaN
                /\ JS.number_le (JS.of_Z 12) (currentFontSize r))
  /\ AppSettings.fontSize
       (ensureValidSettings (LoadedSettings.mk light (Some (JS.of_Z 100)) true))
     = JS.of_Z 100.
Proof.
  cbv zeta.
  pose proof (Math_max_12 _ (number_or_not_NaN (LoadedSettings.fontSize loaded))) as Hvalid.
  split; [exact Hvalid|].
  split; [reflexivity|]. split; [reflexivity|].
  split.
  { intros [H|[H|H]]; unfold ensureValidSettings; simpl; rewrite H; reflexivity. }
  split.
  { intros x Hx Hle. unfold ensureValidSettings. simpl. rewrite Hx.
    apply number_or_at_least_12, Hle. }
  split.
  { apply number_or_at_least_12. apply Hvalid. }
  split; [|reflexivity].
  intros r. apply Math_max_12. apply number_or_not_NaN.
Qed.

Lemma ensureValidSettings_valid_witness :
  AppSettings.fontSize
    (ensureValidSettings (LoadedSettings.mk dark (Some (JS.of_Z 5)) false)) = JS.of_Z 12
  /\ AppSettings.fontSize (ensureValidSettings (LoadedSettings.mk dark None false))
     = JS.of_Z 16
  /\ same_number
       (AppSettings.fontSize
          (ensureValidSettings (LoadedSettings.mk dark (Some (JS.of_Z 20)) false)))
       (JS.of_Z 20).
Proof.
  split; [reflexivity|].
  split.
  - destruct (ensureValidSettings_valid (LoadedSettings.mk dark None false))
      as (_ & _ & _ & Hfalsy & _).
    apply Hfalsy. left. reflexivity.
  - destruct (ensureValidSettings_valid
                (LoadedSettings.mk dark (Some (JS.of_Z 20)) false))
      as (_ & _ & _ & _ & Hkept & _).
    apply (Hkept (JS.of_Z 20)); [reflexivity|]. simpl. discriminate.
Defined.

(** ** Reading the cache at start-up *)

Lemma stored_kinds (m : gmap string Blob) c s t :
  m !! STORAGE_KEYS.CACHE_DATA = CacheDataJSON <$> c ->
  m !! STORAGE_KEYS.SETTINGS = SettingsJSON <$> s ->
  m !! STORAGE_KEYS.LAST_SYNC = ISOString <$> t ->
  stored m = Some (mkStored c s t).
Proof.
  intros Hc Hs Ht. unfold stored. rewrite Hc, Hs, Ht.
  destruct c, s, t; reflexivity.
Qed.

Lemma well_kinded_stored (m : gmap string Blob) :
  well_kinded m ->
  exists c s t,
    m !! STORAGE_KEYS.CACHE_DATA = CacheDataJSON <$> c
    /\ m !! STORAGE_KEYS.SETTINGS = SettingsJSON <$> s
    /\ m !! STORAGE_KEYS.LAST_SYNC = ISOString <$> t.
Proof.
  intros (Hc & Hs & Ht).
  destruct (m !! STORAGE_KEYS.CACHE_DATA) as [bc|] eqn:Ec;
    [destruct (Hc bc eq_refl) as [c ->]|];
    (destruct (m !! STORAGE_KEYS.SETTINGS) as [bs|] eqn:Es;
      [destruct (Hs bs eq_refl) as [s ->]|]);
    (destruct (m !! STORAGE_KEYS.LAST_SYNC) as [bt|] eqn:Et;
      [destruct (Ht bt eq_refl) as [t ->]|]).
  - exists (Some c), (Some s), (Some t). auto.
  - exists (Some c), (Some s), None. auto.
  - exists (Some c), None, (Some t). auto.
  - exists (Some c), None, None. auto.
  - exists None, (Some s), (Some t). auto.
  - exists None, (Some s), None. auto.
  - exists None, None, (Some t). auto.
  - exists None, None, None. auto.
Qed.


Lemma loadCachedData_from_reads g texts w :
  (forall key, g key = None) ->
  exists w',
    loadCachedData_from g texts w = (Returned tt, w')
    /\ cachedSongs (state w')
       = from_option CacheData.songs (cachedSongs (state w)) (cachedDataString texts)
    /\ cachedFavourites (state w')
       = from_option CacheData.favourites (cachedFavourites (state w))
                     (cachedDataString texts)
    /\ cachedFolders (state w')
       = from_option CacheData.folders (cachedFolders (state w)) (cachedDataString texts)
    /\ settings (state w')
       = ensureValidSettings
           (from_option reloaded (LoadedSettings.of_settings DEFAULT_SETTINGS)
                        (settingsString texts))
    /\ lastSync (state w') = from_option Some (lastSync (state w)) (lastSyncString texts)
    /\ user (state w') = user (state w)
    /\ storage w' = storage w /\ network w' = network w.
Proof.
  intros Hg. unfold loadCachedData_from, AsyncStorage_getItems. rewrite !Hg.
  unfold_async. destruct texts as [[c|] [s|] [t|]]; simpl; eexists; repeat split.
Qed.

Lemma loadCachedData_from_rejected g texts w :
  g STORAGE_KEYS.CACHE_DATA <> None \/ g STORAGE_KEYS.SETTINGS <> None
  \/ g STORAGE_KEYS.LAST_SYNC <> None ->
  loadCachedData_from g texts w = (Returned tt, w).
Proof.
  intros H. unfold loadCachedData_from, AsyncStorage_getItems. unfold_async.
  destruct (g STORAGE_KEYS.CACHE_DATA); [reflexivity|].
  destruct (g STORAGE_KEYS.SETTINGS); [reflexivity|].
  destruct (g STORAGE_KEYS.LAST_SYNC); [reflexivity|].
  exfalso. destruct H as [H|[H|H]]; apply H; reflexivity.
Qed.

Lemma loadCachedData_from_total g texts w :
  exists w', loadCachedData_from g texts w = (Returned tt, w')
             /\ storage w' = storage w /\ network w' = network w.
Proof.
  unfold loadCachedData_from, AsyncStorage_getItems. unfold_async.
  destruct (g STORAGE_KEYS.CACHE_DATA); [eauto|].
  destruct (g STORAGE_KEYS.SETTINGS); [eauto|].
  destruct (g STORAGE_KEYS.LAST_SYNC); [eauto|].
  destruct texts as [[c|] [s|] [t|]]; simpl; eauto.
Qed.

(** X2. [loadCachedData] fails open. On a storage holding what the program
    wrote it always resolves and never writes to storage or sends a
    request. When one of the three reads is rejected nothing is loaded:
    the state is left exactly as it was. When the reads go through, a
    missing cache snapshot leaves the three lists as they are, a missing
    last-sync text leaves the last-sync time as it is, and missing
    settings put the default settings (light, 16, auto-sync on) in the
    state. *)
Theorem loadCachedData_fails_open (g : string -> option JS.Exn) (w : World) :
  well_kinded (storage w) ->
  exists w',
    loadCachedData g w = Some (Returned tt, w')
    /\ storage w' = storage w /\ network w' = network w
    /\ (g STORAGE_KEYS.CACHE_DATA <> None \/ g STORAGE_KEYS.SETTINGS <> None
        \/ g STORAGE_KEYS.LAST_SYNC <> None -> w' = w)
    /\ ((forall key, g key = None) ->
        (storage w !! STORAGE_KEYS.CACHE_DATA = None ->
         cachedSongs (state w') = cachedSongs (state w)
         /\ cachedFavourites (state w') = cachedFavourites (state w)
         /\ cachedFolders (state w') = cachedFolders (state w))
        /\ (storage w !! STORAGE_KEYS.LAST_SYNC = None ->
            lastSync (state w') = lastSync (state w))
        /\ (storage w !! STORAGE_KEYS.SETTINGS = None ->
            settings (state w') = DEFAULT_SETTINGS)).
Proof.
  intros Hkinds.
  destruct (well_kinded_stored _ Hkinds) as (c & s & t & Hc & Hs & Ht).
  unfold loadCachedData. rewrite (stored_kinds _ _ _ _ Hc Hs Ht).
  destruct (loadCachedData_from_total g (mkStored c s t) w) as (w' & Hrun & Hst & Hnet).
  exists w'. split; [rewrite Hrun; reflexivity|].
  split; [exact Hst|]. split; [exact Hnet|]. split.
  - intros Hrej. rewrite (loadCachedData_from_rejected _ _ _ Hrej) in Hrun.
    congruence.
  - intros Hg.
    destruct (loadCachedData_from_reads g (mkStored c s t) w Hg)
      as (w'' & Hrun' & Hsongs & Hfavs & Hfolders & Hsettings & Hsync & _).
    assert (w'' = w') as -> by congruence. simpl in *.
    split; [|split].
    + intros Hnone. rewrite Hnone in Hc. destruct c; [discriminate|]. auto.
    + intros Hnone. rewrite Hnone in Ht. destruct t; [discriminate|]. auto.
    + intros Hnone. rewrite Hnone in Hs. destruct s; [discriminate|].
      rewrite Hsettings. reflexivity.
Qed.

Lemma loadCachedData_fails_open_witness :
  let w := Sample.world (Some Sample.alice) Sample.songs [] [] (Some 5) in
  (exists w', loadCachedData (fun _ => Some (JS.Error "storage is locked")) w
              = Some (Returned tt, w') /\ w' = w)
  /\ (exists w', loadCachedData (fun _ => None) w = Some (Returned tt, w')
                 /\ cachedSongs (state w') = Sample.songs
                 /\ lastSync (state w') = Some 5
                 /\ settings (state w') = DEFAULT_SETTINGS).
Proof.
  cbv zeta.
  assert (Hk : well_kinded (storage (Sample.world (Some Sample.alice) Sample.songs [] []
                                                  (Some 5)))).
  { unfold well_kinded. simpl. repeat split; intros b H; rewrite lookup_empty in H;
      discriminate H. }
  split.
  - destruct (loadCachedData_fails_open
                (fun _ => Some (JS.Error "storage is locked")) _ Hk)
      as (w' & Hrun & _ & _ & Hrej & _).
    exists w'. split; [exact Hrun|]. apply Hrej. left. discriminate.
  - destruct (loadCachedData_fails_open (fun _ => None) _ Hk)
      as (w' & Hrun & _ & _ & _ & Hread).
    destruct (Hread (fun _ => eq_refl)) as (Hlists & Hsync & Hsettings).
    exists w'. split; [exact Hrun|].
    split; [apply Hlists; reflexivity|].
    split; [apply Hsync; reflexivity | apply Hsettings; reflexivity].
Defined.





(** X4. Settings survive a restart. After an [updateSettings] whose write
    the storage accepted, called through the closures of the current
    render, the provider mounted anew loads the settings written, passed
    through [ensureValidSettings]: theme and auto-sync come back as they
    were, and so does a font size that is finite and at least 12, as every
    size stored by [updateFontSize] for a number is. *)
Theorem settings_survive_restart (h : Host) (newSettings : AppSettings.partial)
    (w : World) (u : option User.t) (g : string -> option JS.Exn) :
  well_kinded (storage w) ->
  setItem_rejects h STORAGE_KEYS.SETTINGS = None ->
  (forall key, g key = None) ->
  let w1 := snd (updateSettings (render w) h newSettings w) in
  exists w2,
    loadCachedData g (mounted u w1) = Some (Returned tt, w2)
    /\ settings (state w2) = ensureValidSettings (reloaded (settings (state w1)))
    /\ AppSettings.theme (settings (state w2)) = AppSettings.theme (settings (state w1))
    /\ AppSettings.autoSync (settings (state w2))
       = AppSettings.autoSync (settings (state w1))
    /\ ((exists q, AppSettings.fontSize (settings (state w1)) = JS.Finite q
                   /\ (inject_Z 12 <= q)%Q) ->
        same_number (AppSettings.fontSize (settings (state w2)))
                    (AppSettings.fontSize (settings (state w1))))
    /\ (forall size,
          newSettings
          = AppSettings.mkPartial None
              (Some (JS.Math_max (JS.of_Z 12) (JS.Math_min (JS.of_Z 32) size))) None ->
          size <> JS.NaN ->
          same_number (AppSettings.fontSize (settings (state w2)))
                      (AppSettings.fontSize (settings (state w1)))).
Proof.
  intros Hk Hok Hg w1.
  assert (Hst : storage w1
                = <[STORAGE_KEYS.SETTINGS := SettingsJSON (settings (state w1))]>
                    (storage w)).
  { unfold w1, updateSettings; unfold_async. rewrite Hok. reflexivity. }
  destruct (well_kinded_stored _ Hk) as (c & _ & t & Hc & _ & Ht).
  unfold loadCachedData. simpl.
  rewrite (stored_kinds (storage w1) c (Some (settings (state w1))) t);
    [|rewrite Hst, lookup_insert_ne by discriminate; exact Hc
     |rewrite Hst; apply lookup_insert_eq
     |rewrite Hst, lookup_insert_ne by discriminate; exact Ht].
  destruct (loadCachedData_from_reads g (mkStored c (Some (settings (state w1))) t)
              (mounted u w1) Hg)
    as (w2 & Hrun & _ & _ & _ & Hsettings & _).
  simpl in Hsettings.
  exists w2. split; [rewrite Hrun; reflexivity|].
  split; [exact Hsettings|]. rewrite Hsettings.
  split; [reflexivity|]. split; [reflexivity|].
  assert (Hfinite : forall q, AppSettings.fontSize (settings (state w1)) = JS.Finite q ->
            (inject_Z 12 <= q)%Q ->
            same_number
              (AppSettings.fontSize
                 (ensureValidSettings (reloaded (settings (state w1)))))
              (AppSettings.fontSize (settings (state w1)))).
  { intros q Hq Hle. unfold ensureValidSettings, reloaded. simpl. rewrite Hq. simpl.
    apply (number_or_at_least_12 (JS.Finite q)). exact Hle. }
  split; [intros (q & Hq & Hle); apply (Hfinite q Hq Hle)|].
  intros size -> Hnan.
  assert (Hsize : AppSettings.fontSize (settings (state w1))
                  = JS.Math_max (JS.of_Z 12) (JS.Math_min (JS.of_Z 32) size)).
  { unfold w1. rewrite updateSettings_settings. reflexivity. }
  destruct (clamp_in_range size Hnan) as [Hlow Hhigh].
  rewrite <- Hsize in Hlow, Hhigh.
  destruct (AppSettings.fontSize (settings (state w1))) as [| |q|] eqn:Hq;
    simpl in Hlow, Hhigh; try contradiction.
  apply (Hfinite q eq_refl Hlow).
Qed.

Lemma settings_survive_restart_witness :
  let w := Sample.world None [] [] [] None in
  let h := Sample.device Sample.unreachable 0 in
  let w1 := snd (updateFontSize (render w) h (JS.of_Z 40) w) in
  exists w2,
    loadCachedData (fun _ => None) (mounted None w1) = Some (Returned tt, w2)
    /\ AppSettings.theme (settings (state w2)) = light
    /\ same_number (AppSettings.fontSize (settings (state w2))) (JS.of_Z 32).
Proof.
  cbv zeta.
  assert (Hk : well_kinded (storage (Sample.world None [] [] [] None))).
  { unfold well_kinded. simpl. repeat split; intros b H; rewrite lookup_empty in H;
      discriminate H. }
  destruct (settings_survive_restart (Sample.device Sample.unreachable 0)
              (AppSettings.mkPartial None
                 (Some (JS.Math_max (JS.of_Z 12) (JS.Math_min (JS.of_Z 32) (JS.of_Z 40))))
                 None)
              (Sample.world None [] [] [] None) None (fun _ => None)
              Hk eq_refl (fun _ => eq_refl))
    as (w2 & Hrun & _ & Htheme & _ & _ & Hsize).
  exists w2. split; [exact Hrun|].
  split; [rewrite Htheme; reflexivity|].
  apply (Hsize (JS.of_Z 40) eq_refl). discriminate.
Defined.

Lemma clearCache_resolved_storage h w w1 :
  clearCache h w = (Returned tt, w1) ->
  storage w1
  = delete STORAGE_KEYS.CACHE_DATA (delete STORAGE_KEYS.LAST_SYNC (storage w)).
Proof.
  unfold clearCache; unfold_async. case_host; intros H; inversion H. reflexivity.
Qed.

(** X5. Clearing the cache does not clear the preferences. After a
    [clearCache] that resolved, the provider mounted anew finds neither
    snapshot nor last-sync text: the three lists are empty and there is no
    last-sync time, so the cache counts as expired; the settings it loads
    are those it would have loaded without the clearing. *)
Theorem clearCache_then_restart (h : Host) (w w1 : World) (u : option User.t)
    (g : string -> option JS.Exn) :
  well_kinded (storage w) ->
  clearCache h w = (Returned tt, w1) ->
  (forall key, g key = None) ->
  exists w2,
    loadCachedData g (mounted u w1) = Some (Returned tt, w2)
    /\ cachedSongs (state w2) = [] /\ cachedFavourites (state w2) = []
    /\ cachedFolders (state w2) = [] /\ lastSync (state w2) = None
    /\ (forall now, isCacheExpired (render w2) now = true)
    /\ (forall w0, loadCachedData g (mounted u w) = Some (Returned tt, w0) ->
                   settings (state w2) = settings (state w0)).
Proof.
  intros Hk Hclear Hg.
  destruct (well_kinded_stored _ Hk) as (c & s & t & Hc & Hs & Ht).
  pose proof (clearCache_resolved_storage _ _ _ Hclear) as Hst.
  assert (Hs1 : stored (storage w1) = Some (mkStored None s None)).
  { apply stored_kinds; rewrite Hst; simpl.
    - apply lookup_delete_eq.
    - rewrite !lookup_delete_ne by discriminate. exact Hs.
    - rewrite lookup_delete_ne by discriminate. apply lookup_delete_eq. }
  unfold loadCachedData at 1. simpl. rewrite Hs1.
  destruct (loadCachedData_from_reads g (mkStored None s None) (mounted u w1) Hg)
    as (w2 & Hrun & Hsongs & Hfavs & Hfolders & Hsettings & Hsync & _).
  simpl in *.
  exists w2. split; [rewrite Hrun; reflexivity|].
  do 4 (split; [assumption|]).
  split; [intros now; unfold isCacheExpired, render; rewrite Hsync; reflexivity|].
  intros w0. unfold loadCachedData. simpl.
  rewrite (stored_kinds _ _ _ _ Hc Hs Ht).
  destruct (loadCachedData_from_reads g (mkStored c s t) (mounted u w) Hg)
    as (w0' & Hrun0 & _ & _ & _ & Hsettings0 & _).
  rewrite Hrun0. intros H. inversion H. subst w0'.
  rewrite Hsettings, Hsettings0. reflexivity.
Qed.

Lemma clearCache_then_restart_witness :
  let w0 := Sample.world (Some Sample.alice) [] [] [] None in
  let h := Sample.device Sample.unreachable 9 in
  let w := snd (updateCache (render w0) h (CacheData.mkPartial (Some Sample.songs) None None)
                  (snd (toggleTheme (render w0) h w0))) in
  exists w2,
    loadCachedData (fun _ => None) (mounted None (snd (clearCache h w)))
    = Some (Returned tt, w2)
    /\ cachedSongs (state w2) = []
    /\ isCacheExpired (render w2) 10 = true
    /\ AppSettings.theme (settings (state w2)) = dark.
Proof.
  cbv zeta.
  set (w := snd (updateCache _ _ _ _)).
  assert (Hk : well_kinded (storage w)).
  { unfold well_kinded. subst w. vm_compute.
    repeat split; intros b H; injection H as <-; eexists; reflexivity. }
  destruct (clearCache_then_restart (Sample.device Sample.unreachable 9) w _ None
              (fun _ => None) Hk eq_refl (fun _ => eq_refl))
    as (w2 & Hrun & Hsongs & _ & _ & _ & Hexp & Hsettings).
  exists w2. split; [exact Hrun|]. split; [exact Hsongs|].
  split; [apply Hexp|].
  eassert (Hrun0 : loadCachedData (fun _ => None) (mounted None w)
                   = Some (Returned tt, _))
    by (subst w; vm_compute; reflexivity).
  rewrite (Hsettings _ Hrun0). reflexivity.
Defined.

(** ** The operations of the hook always answer *)

(** Whatever its body does, the skeleton resolves and ends with the
    loading flag off. *)
Lemma attempt_answers {T : Type} (fallback : string) (failed : option T)
    (body : Async (ApiResponse T)) :
  (forall w result w', body w = (Returned result, w') -> data_or_error result) ->
  answers (attempt fallback failed body).
Proof.
  intros Hbody w. unfold attempt; unfold_async.
  match goal with |- context [body ?w0] => destruct (body w0) as [[result|e] w'] eqn:E end.
  - eexists _, _. split; [reflexivity|]. split; [eapply Hbody, E | reflexivity].
  - eexists _, _. split; [reflexivity|]. split; [intros H; discriminate H | reflexivity].
Qed.

Lemma no_user_answers {T : Type} (d : option T) : answers (no_user d).
Proof.
  intros w. eexists _, _. split; [reflexivity|].
  split; [intros H; discriminate H | auto].
Qed.

Ltac body_answers :=
  let w := fresh "w" in let result := fresh "result" in let w' := fresh "w'" in
  let H := fresh "H" in
  intros w result w'; unfold updateCache; unfold_async;
  repeat case_match; simpl; intros H; inversion H; subst;
  unfold data_or_error; simpl; intros; eauto; discriminate.

Lemma fetchSongs_answers r h : answers (fetchSongs r h).
Proof. apply attempt_answers. body_answers. Qed.

Lemma fetchFavourites_answers r h : answers (fetchFavourites r h).
Proof.
  unfold fetchFavourites. destruct (user r); [|apply no_user_answers].
  apply attempt_answers. body_answers.
Qed.

Lemma fetchFolders_answers r h : answers (fetchFolders r h).
Proof.
  unfold fetchFolders. destruct (user r); [|apply no_user_answers].
  apply attempt_answers. body_answers.
Qed.

Lemma answers_then {T U : Type} (m : Async (ApiResponse T)) (u : ApiResponse U) :
  answers m -> data_or_error u ->
  forall w result w', (m ;; ret u)%async w = (Returned result, w') -> data_or_error result.
Proof.
  intros Hm Hu w result w'. unfold bind, ret.
  destruct (Hm w) as (x & w1 & -> & _). intros H. inversion H. subst. exact Hu.
Qed.

Lemma syncAllData_answers r h1 h2 h3 : answers (syncAllData r h1 h2 h3).
Proof.
  apply attempt_answers. intros w result w'. unfold bind at 1.
  destruct (fetchSongs_answers r h1 w) as (s & w1 & -> & _). unfold bind at 1.
  destruct (fetchFavourites_answers r h2 w1) as (f & w2 & -> & _). unfold bind at 1.
  destruct (fetchFolders_answers r h3 w2) as (d & w3 & -> & _).
  destruct (Boolean (error s) || Boolean (error f) || Boolean (error d));
    unfold_async; intros H; inversion H; subst; intros E; simpl in *;
    [discriminate E | eauto].
Qed.

(** X6. Every operation of [useSupabase] answers: whatever the backend
    replies, whether its promise or a write to storage rejects, the
    operation resolves; a result without error carries data; and the
    loading flag is off afterwards. [getFolderSongCount], which returns a
    bare number, resolves as well. *)
Theorem hook_operations_answer (r : Render) (h : Host) :
  answers (fetchSongs r h)
  /\ (forall id, answers (getSong h id))
  /\ (forall query, answers (searchSongs r h query))
  /\ answers (fetchFavourites r h)
  /\ (forall songId, answers (addFavourite r h songId))
  /\ (forall songId, answers (removeFavourite r h songId))
  /\ answers (fetchFolders r h)
  /\ (forall name, answers (createFolder r h name))
  /\ (forall id name, answers (updateFolder r h id name))
  /\ (forall id, answers (deleteFolder r h id))
  /\ (forall songId folderId, answers (addSongToFolder h songId folderId))
  /\ (forall songId folderId, answers (removeSongFromFolder h songId folderId))
  /\ (forall folderId, answers (getFolderSongs h folderId))
  /\ (forall h_favourites h_folders, answers (syncAllData r h h_favourites h_folders))
  /\ (forall folderId, resolves (getFolderSongCount h folderId)).
Proof.
  split; [apply fetchSongs_answers|].
  split; [intros id; apply attempt_answers; body_answers|].
  split.
  { intros query. unfold searchSongs. destruct (negb (JS.truthy (JS.trim query))).
    - apply fetchSongs_answers.
    - apply attempt_answers. body_answers. }
  split; [apply fetchFavourites_answers|].
  split.
  { intros songId. unfold addFavourite. destruct (user r); [|apply no_user_answers].
    apply attempt_answers. body_answers. }
  split.
  { intros songId. unfold removeFavourite. destruct (user r); [|apply no_user_answers].
    apply attempt_answers. body_answers. }
  split; [apply fetchFolders_answers|].
  split.
  { intros name. unfold createFolder. destruct (user r) as [u|] eqn:Hu;
      [|apply no_user_answers].
    apply attempt_answers. intros w result w'. unfold bind at 1, call.
    destruct (insert_folder (backend h) (User.id u) (JS.trim name)) as [[row|err]|e];
      [|unfold_async; intros H; inversion H; discriminate
       |unfold_async; intros H; inversion H].
    apply answers_then; [apply fetchFolders_answers|]. intros _. simpl. eauto. }
  split.
  { intros id name. unfold updateFolder. destruct (user r) as [u|] eqn:Hu;
      [|apply no_user_answers].
    apply attempt_answers. intros w result w'. unfold bind at 1, call.
    destruct (update_folder (backend h) id (User.id u) (JS.trim name)) as [[row|err]|e];
      [|unfold_async; intros H; inversion H; discriminate
       |unfold_async; intros H; inversion H].
    apply answers_then; [apply fetchFolders_answers|]. intros _. simpl. eauto. }
  split.
  { intros id. unfold deleteFolder. destruct (user r) as [u|] eqn:Hu;
      [|apply no_user_answers].
    apply attempt_answers. intros w result w'. unfold bind at 1, call.
    destruct (delete_folder (backend h) id (User.id u)) as [[err|]|e];
      [unfold_async; intros H; inversion H; discriminate
      | |unfold_async; intros H; inversion H].
    apply answers_then; [apply fetchFolders_answers|]. intros _. simpl. eauto. }
  split; [intros songId folderId; apply attempt_answers; body_answers|].
  split; [intros songId folderId; apply attempt_answers; body_answers|].
  split; [intros folderId; apply attempt_answers; body_answers|].
  split; [intros h2 h3; apply syncAllData_answers|].
  intros folderId w. unfold getFolderSongCount; unfold_async.
  destruct (count_folder_songs (backend h) folderId) as [[c [e|]]|e]; simpl; eauto.
Qed.

(** ** What a fetch does to the cache *)

Ltac fetched_cases h :=
  let Hno := fresh "Hno" in
  destruct (setItem_rejects h STORAGE_KEYS.CACHE_DATA) eqn:?,
           (setItem_rejects h STORAGE_KEYS.LAST_SYNC) eqn:?; simpl;
  ((do 4 (split; [reflexivity|]));
   (split;
    [ intros [? ?];
      first [ discriminate
            | repeat split; rewrite lookup_insert_ne by discriminate;
              apply lookup_insert_eq ]
    | intros Hno;
      first [ exfalso; apply Hno; split; reflexivity
            | split; [reflexivity | eauto] ] ])).

Lemma fetchSongs_failed r h w :
  reply_failed (select_songs (backend h)) ->
  state (snd (fetchSongs r h w)) = state w
  /\ storage (snd (fetchSongs r h w)) = storage w
  /\ network (snd (fetchSongs r h w)) = SelectSongs :: network w
  /\ exists msg, fst (fetchSongs r h w) = Returned (mkApi None (Some msg)).
Proof.
  unfold fetchSongs, reply_failed; unfold_async.
  destruct (select_songs (backend h)) as [[d [e|]]|e]; simpl; intros H;
    try (contradiction H; reflexivity); eauto 6.
Qed.

Lemma fetchSongs_fetched r h w d :
  select_songs (backend h) = Returned (mkPg (Some d) None) ->
  let res := fetchSongs r h w in
  cachedSongs (state (snd res)) = d
  /\ cachedFavourites (state (snd res)) = cachedFavourites (state w)
  /\ cachedFolders (state (snd res)) = cachedFolders (state w)
  /\ network (snd res) = SelectSongs :: network w
  /\ (accepts_snapshot h ->
      fst res = Returned (mkApi (Some d) None)
      /\ lastSync (state (snd res)) = Some (clock h 2)
      /\ storage (snd res) !! STORAGE_KEYS.CACHE_DATA
         = Some (CacheDataJSON
                   (snapshot r (CacheData.mkPartial (Some d) None None) (clock h 0))))
  /\ (~ accepts_snapshot h ->
      lastSync (state (snd res)) = lastSync (state w)
      /\ exists msg, fst res = Returned (mkApi None (Some msg))).
Proof.
  intros Hreply. unfold fetchSongs, updateCache, accepts_snapshot, snapshot; unfold_async.
  rewrite Hreply. simpl. fetched_cases h.
Qed.

Lemma fetchFavourites_failed r h w u :
  user r = Some u ->
  reply_failed (select_favourites (backend h) (User.id u)) ->
  state (snd (fetchFavourites r h w)) = state w
  /\ storage (snd (fetchFavourites r h w)) = storage w
  /\ network (snd (fetchFavourites r h w)) = SelectFavourites (User.id u) :: network w
  /\ exists msg, fst (fetchFavourites r h w) = Returned (mkApi None (Some msg)).
Proof.
  intros Hu. unfold fetchFavourites, reply_failed. rewrite Hu. unfold_async.
  destruct (select_favourites (backend h) (User.id u)) as [[d [e|]]|e]; simpl; intros H;
    try (contradiction H; reflexivity); eauto 6.
Qed.

Lemma fetchFavourites_fetched r h w u d :
  user r = Some u ->
  select_favourites (backend h) (User.id u) = Returned (mkPg (Some d) None) ->
  let res := fetchFavourites r h w in
  cachedFavourites (state (snd res)) = d
  /\ cachedSongs (state (snd res)) = cachedSongs (state w)
  /\ cachedFolders (state (snd res)) = cachedFolders (state w)
  /\ network (snd res) = SelectFavourites (User.id u) :: network w
  /\ (accepts_snapshot h ->
      fst res = Returned (mkApi (Some d) None)
      /\ lastSync (state (snd res)) = Some (clock h 2)
      /\ storage (snd res) !! STORAGE_KEYS.CACHE_DATA
         = Some (CacheDataJSON
                   (snapshot r (CacheData.mkPartial None (Some d) None) (clock h 0))))
  /\ (~ accepts_snapshot h ->
      lastSync (state (snd res)) = lastSync (state w)
      /\ exists msg, fst res = Returned (mkApi None (Some msg))).
Proof.
  intros Hu Hreply.
  unfold fetchFavourites, updateCache, accepts_snapshot, snapshot. rewrite Hu.
  unfold_async. rewrite Hreply. simpl. fetched_cases h.
Qed.

Lemma fetchFolders_failed r h w u :
  user r = Some u ->
  reply_failed (select_folders (backend h) (User.id u)) ->
  state (snd (fetchFolders r h w)) = state w
  /\ storage (snd (fetchFolders r h w)) = storage w
  /\ network (snd (fetchFolders r h w)) = SelectFolders (User.id u) :: network w
  /\ exists msg, fst (fetchFolders r h w) = Returned (mkApi None (Some msg)).
Proof.
  intros Hu. unfold fetchFolders, reply_failed. rewrite Hu. unfold_async.
  destruct (select_folders (backend h) (User.id u)) as [[d [e|]]|e]; simpl; intros H;
    try (contradiction H; reflexivity); eauto 6.
Qed.

Lemma fetchFolders_fetched r h w u d :
  user r = Some u ->
  select_folders (backend h) (User.id u) = Returned (mkPg (Some d) None) ->
  let res := fetchFolders r h w in
  cachedFolders (state (snd res)) = d
  /\ cachedSongs (state (snd res)) = cachedSongs (state w)
  /\ cachedFavourites (state (snd res)) = cachedFavourites (state w)
  /\ network (snd res) = SelectFolders (User.id u) :: network w
  /\ (accepts_snapshot h ->
      fst res = Returned (mkApi (Some d) None)
      /\ lastSync (state (snd res)) = Some (clock h 2)
      /\ storage (snd res) !! STORAGE_KEYS.CACHE_DATA
         = Some (CacheDataJSON
                   (snapshot r (CacheData.mkPartial None None (Some d)) (clock h 0))))
  /\ (~ accepts_snapshot h ->
      lastSync (state (snd res)) = lastSync (state w)
      /\ exists msg, fst res = Returned (mkApi None (Some msg))).
Proof.
  intros Hu Hreply.
  unfold fetchFolders, updateCache, accepts_snapshot, snapshot. rewrite Hu.
  unfold_async. rewrite Hreply. simpl. fetched_cases h.
Qed.

(** X7. The three fetches overwrite the cache or leave it. For each of
    [fetchSongs], [fetchFavourites] and [fetchFolders] (the latter two for
    a signed-in user): a failed query changes neither state nor storage;
    a reply with data replaces the cached list wholesale, is persisted
    together with the other two lists as the render has them, and is
    reported as an error when the storage rejects the snapshot, the cache
    in memory holding the new list all the same; a reply with neither data
    nor error yields the empty list without touching the cache. *)
Theorem fetch_overwrites_or_leaves (r : Render) (h : Host) (u : User.t) :
  user r = Some u ->
  overwrites_or_leaves (fetchSongs r h) (select_songs (backend h)) cachedSongs r h
    (fun d => CacheData.mkPartial (Some d) None None)
  /\ overwrites_or_leaves (fetchFavourites r h)
       (select_favourites (backend h) (User.id u)) cachedFavourites r h
       (fun d => CacheData.mkPartial None (Some d) None)
  /\ overwrites_or_leaves (fetchFolders r h)
       (select_folders (backend h) (User.id u)) cachedFolders r h
       (fun d => CacheData.mkPartial None None (Some d)).
Proof.
  intros Hu. split; [|split]; intros w; cbv zeta.
  - split; [intros Hf; destruct (fetchSongs_failed r h w Hf) as (? & ? & _ & ?); auto|].
    split.
    + intros d Hd. destruct (fetchSongs_fetched r h w d Hd) as (? & _ & _ & _ & Hok & Hno).
      split; [assumption|]. split; [exact Hok | intros Hrej; apply Hno, Hrej].
    + intros Hnull. unfold fetchSongs; unfold_async. rewrite Hnull. auto.
  - split; [intros Hf; destruct (fetchFavourites_failed r h w u Hu Hf) as (? & ? & _ & ?);
            auto|].
    split.
    + intros d Hd.
      destruct (fetchFavourites_fetched r h w u d Hu Hd) as (? & _ & _ & _ & Hok & Hno).
      split; [assumption|]. split; [exact Hok | intros Hrej; apply Hno, Hrej].
    + intros Hnull. unfold fetchFavourites. rewrite Hu. unfold_async. rewrite Hnull. auto.
  - split; [intros Hf; destruct (fetchFolders_failed r h w u Hu Hf) as (? & ? & _ & ?);
            auto|].
    split.
    + intros d Hd.
      destruct (fetchFolders_fetched r h w u d Hu Hd) as (? & _ & _ & _ & Hok & Hno).
      split; [assumption|]. split; [exact Hok | intros Hrej; apply Hno, Hrej].
    + intros Hnull. unfold fetchFolders. rewrite Hu. unfold_async. rewrite Hnull. auto.
Qed.

Lemma fetch_overwrites_or_leaves_witness :
  let w := Sample.world (Some Sample.alice) [Sample.holy_night] [] [] None in
  let up := Sample.device (Sample.serving Sample.songs) 7 in
  let full := Sample.full_device (Sample.serving Sample.songs) 7 in
  let down := Sample.device Sample.unreachable 7 in
  cachedSongs (state (snd (fetchSongs (render w) up w))) = Sample.songs
  /\ (exists msg, fst (fetchSongs (render w) full w) = Returned (mkApi None (Some msg)))
  /\ cachedSongs (state (snd (fetchSongs (render w) full w))) = Sample.songs
  /\ state (snd (fetchSongs (render w) down w)) = state w.
Proof.
  cbv zeta.
  set (w := Sample.world (Some Sample.alice) [Sample.holy_night] [] [] None).
  destruct (fetch_overwrites_or_leaves (render w)
              (Sample.device (Sample.serving Sample.songs) 7) Sample.alice eq_refl)
    as [Hup _].
  destruct (fetch_overwrites_or_leaves (render w)
              (Sample.full_device (Sample.serving Sample.songs) 7) Sample.alice eq_refl)
    as [Hfull _].
  destruct (fetch_overwrites_or_leaves (render w)
              (Sample.device Sample.unreachable 7) Sample.alice eq_refl)
    as [Hdown _].
  destruct (Hup w) as (_ & Hd & _). destruct (Hd Sample.songs eq_refl) as (Hc & _).
  destruct (Hfull w) as (_ & Hd' & _).
  destruct (Hd' Sample.songs eq_refl) as (Hc' & _ & Hrej).
  destruct (Hdown w) as (Hfail & _).
  split; [exact Hc|].
  split; [apply Hrej; intros [H _]; discriminate H|].
  split; [exact Hc'|].
  apply Hfail. exact I.
Defined.

(** ** Pull to refresh on the Songs screen *)

Lemma fetchFolders_frame r h w :
  cachedSongs (state (snd (fetchFolders r h w))) = cachedSongs (state w)
  /\ cachedFavourites (state (snd (fetchFolders r h w))) = cachedFavourites (state w).
Proof.
  unfold fetchFolders, updateCache; unfold_async.
  destruct (user r) as [u|]; [|auto].
  destruct (select_folders (backend h) (User.id u)) as [[[d|] [e|]]|e]; simpl;
    case_host; auto.
Qed.

Lemma syncAllData_cachedFavourites r h1 h2 h3 w u f :
  user r = Some u ->
  select_favourites (backend h2) (User.id u) = Returned (mkPg (Some f) None) ->
  cachedFavourites (state (snd (syncAllData r h1 h2 h3 w))) = f.
Proof.
  intros Hu Hf. unfold syncAllData, attempt; unfold_async.
  match goal with
  | |- context [fetchSongs r h1 ?W] =>
      destruct (fetchSongs_answers r h1 W) as (s & w1 & -> & _)
  end.
  pose proof (fetchFavourites_fetched r h2 w1 u f Hu Hf) as (Hfav & _).
  destruct (fetchFavourites_answers r h2 w1) as (fr & w2 & E2 & _).
  rewrite E2 in Hfav |- *. simpl in Hfav.
  pose proof (fetchFolders_frame r h3 w2) as (_ & Hframe).
  destruct (fetchFolders_answers r h3 w2) as (dr & w3 & E3 & _).
  rewrite E3 in Hframe |- *. simpl in Hframe.
  destruct (Boolean (error s) || Boolean (error fr) || Boolean (error dr)); simpl;
    congruence.
Qed.

(** X8. Pull to refresh persists the favourites and folders of before
    the refresh. [handleRefresh] syncs the three collections and then
    reloads the songs, all through the closures of the render it belongs
    to. When the reload fetches the songs [d] and the storage accepts the
    snapshot, the handler hands [d] to the screen and the cache in memory
    holds [d] and, if the sync fetched favourites [f], holds [f]; but the
    snapshot left in storage, written last by the reload, holds [d]
    together with the favourites and the folders of the render: what the
    sync fetched for them is not in it. *)
Theorem handleRefresh_persists_stale_lists
    (r : Render) (h_songs h_favourites h_folders h_reload : Host) (w : World)
    (u : User.t) (d : list Song.t) (f : list Favourite.t) :
  isOffline r = false ->
  user r = Some u ->
  select_favourites (backend h_favourites) (User.id u) = Returned (mkPg (Some f) None) ->
  select_songs (backend h_reload) = Returned (mkPg (Some d) None) ->
  accepts_snapshot h_reload ->
  let res := handleRefresh r h_songs h_favourites h_folders h_reload w in
  fst res = Returned (Some d)
  /\ cachedSongs (state (snd res)) = d
  /\ cachedFavourites (state (snd res)) = f
  /\ storage (snd res) !! STORAGE_KEYS.CACHE_DATA
     = Some (CacheDataJSON
               (CacheData.mk d (cachedFavourites r) (cachedFolders r)
                             (clock h_reload 0))).
Proof.
  intros Hoff Hu Hf Hd Hok res. subst res. unfold handleRefresh. rewrite Hoff.
  pose proof (syncAllData_cachedFavourites r h_songs h_favourites h_folders w u f Hu Hf)
    as Hfav.
  destruct (syncAllData_answers r h_songs h_favourites h_folders w)
    as (sr & w1 & E1 & _).
  rewrite E1 in Hfav. simpl in Hfav.
  destruct (fetchSongs_fetched r h_reload w1 d Hd) as (Hs & Hfv & _ & _ & Haccept & _).
  destruct (Haccept Hok) as (Hres & _ & Hst).
  unfold loadSongs; unfold_async. rewrite E1.
  destruct (fetchSongs r h_reload w1) as [o w2]. simpl in *. subst o. simpl.
  repeat split; try assumption. congruence.
Qed.

Lemma handleRefresh_persists_stale_lists_witness :
  let old := [Sample.favourite_of Sample.alice 1 1] in
  let new := [Sample.favourite_of Sample.alice 1 1; Sample.favourite_of Sample.alice 2 2] in
  let w := Sample.world (Some Sample.alice) [] old [] None in
  let songs_up := Sample.device (Sample.serving Sample.songs) 50 in
  let favourites_up :=
    Sample.device
      (Sample.scripted Sample.rejected (fun _ _ => Sample.rejected)
         (Returned (mkPg (Some new) None)) (fun _ _ => Sample.rejected)
         Sample.rejected (fun _ _ => Sample.rejected) Sample.rejected) 50 in
  let res := handleRefresh (render w) songs_up favourites_up songs_up songs_up w in
  cachedFavourites (state (snd res)) = new
  /\ storage (snd res) !! STORAGE_KEYS.CACHE_DATA
     = Some (CacheDataJSON (CacheData.mk Sample.songs old [] 50)).
Proof.
  cbv zeta.
  match goal with
  | |- cachedFavourites (state (snd (handleRefresh ?r ?a ?b ?c ?e ?w))) = ?new /\ _ =>
      destruct (handleRefresh_persists_stale_lists r a b c e w Sample.alice
                  Sample.songs new eq_refl eq_refl eq_refl)
        as (_ & _ & Hfav & Hst)
  end.
  - vm_compute. reflexivity.
  - split; reflexivity.
  - split; [exact Hfav | exact Hst].
Defined.

(** ** Favourites: removing, and the heart *)

Lemma isFavourite_find r u songId :
  user r = Some u ->
  isFavourite r songId
  = bool_decide (is_Some (List.find (same_favourite u songId) (cachedFavourites r))).
Proof.
  intros Hu. unfold isFavourite. rewrite Hu.
  induction (cachedFavourites r) as [|fav l IH]; simpl; [reflexivity|].
  destruct (same_favourite u songId fav); simpl; [reflexivity | exact IH].
Qed.

Lemma isFavourite_filtered u songId l :
  existsb (same_favourite u songId)
          (List.filter (fun fav => negb (same_favourite u songId fav)) l) = false.
Proof.
  induction l as [|fav l IH]; simpl; [reflexivity|].
  destruct (same_favourite u songId fav) eqn:E; simpl; [exact IH|].
  rewrite E. exact IH.
Qed.

Lemma filter_kept_in_order {A : Type} (f : A -> bool) (l : list A) :
  kept_in_order (List.filter f l) l.
Proof.
  unfold kept_in_order. induction l as [|x l IH]; simpl; [constructor|].
  destruct (f x); [apply sublist_skip | apply sublist_cons]; exact IH.
Qed.

Lemma removeFavourite_cases r h songId w u :
  user r = Some u ->
  let res := removeFavourite r h songId w in
  user (state (snd res)) = user (state w)
  /\ network (snd res) = DeleteFavourite (User.id u) songId :: network w
  /\ (delete_favourite (backend h) (User.id u) songId = Returned None ->
      cachedFavourites (state (snd res))
      = List.filter (fun fav => negb (same_favourite u songId fav)) (cachedFavourites r)
      /\ (accepts_snapshot h -> fst res = Returned (mkApi (Some true) None)))
  /\ (delete_favourite (backend h) (User.id u) songId <> Returned None ->
      state (snd res) = state w /\ storage (snd res) = storage w
      /\ exists msg, fst res = Returned (mkApi (Some false) (Some msg))).
Proof.
  intros Hu. unfold removeFavourite, updateCache, accepts_snapshot. rewrite Hu.
  unfold_async.
  destruct (delete_favourite (backend h) (User.id u) songId) as [[err|]|e]; simpl.
  - repeat split; try discriminate; eauto.
  - case_host; (split; [reflexivity|]); (split; [reflexivity|]);
      (split; [intros _; split; [reflexivity|]; intros [H1 H2];
               first [discriminate | reflexivity]
              | intros H; contradiction H; reflexivity]).
  - repeat split; try discriminate; eauto.
Qed.

(** X9. [removeFavourite] of a signed-in user always sends its delete,
    whether or not the song is a cached favourite. When the backend
    accepts it, the cached favourites become those of the render without
    every entry of this user for this song, the others in their order, so
    the song is no favourite in the render that follows; the call returns
    [true] when the storage accepts the snapshot. When the backend refuses
    or the promise rejects, state and storage stay as they were and the
    call returns [false] with the reason. *)
Theorem removeFavourite_removes (h : Host) (songId : Z) (w : World) (u : User.t) :
  user (state w) = Some u ->
  let res := removeFavourite (render w) h songId w in
  network (snd res) = DeleteFavourite (User.id u) songId :: network w
  /\ (delete_favourite (backend h) (User.id u) songId = Returned None ->
      (forall fav, In fav (cachedFavourites (state (snd res))) <->
                   In fav (cachedFavourites (state w))
                   /\ favourite_key fav <> (User.id u, songId))
      /\ kept_in_order (cachedFavourites (state (snd res))) (cachedFavourites (state w))
      /\ isFavourite (render (snd res)) songId = false
      /\ (accepts_snapshot h -> fst res = Returned (mkApi (Some true) None)))
  /\ (delete_favourite (backend h) (User.id u) songId <> Returned None ->
      state (snd res) = state w /\ storage (snd res) = storage w
      /\ exists msg, fst res = Returned (mkApi (Some false) (Some msg))).
Proof.
  intros Hu res.
  destruct (removeFavourite_cases (render w) h songId w u Hu)
    as (Huser & Hnet & Hok & Hfail).
  fold res in Huser, Hnet, Hok, Hfail.
  split; [exact Hnet|]. split; [|exact Hfail].
  intros Hreply. destruct (Hok Hreply) as [Hcache Hres]. unfold render in Hcache.
  rewrite Hcache. split; [|split; [|split; [|exact Hres]]].
  - intros fav. rewrite filter_In, negb_true_iff.
    rewrite <- not_true_iff_false, same_favourite_key. reflexivity.
  - apply filter_kept_in_order.
  - unfold isFavourite, render. rewrite Huser, Hu, Hcache.
    apply isFavourite_filtered.
Qed.

Lemma removeFavourite_removes_witness :
  let deleting :=
    mkHost
      (mkBackend Sample.rejected (fun _ => Sample.rejected) (fun _ _ => Sample.rejected)
         (fun _ => Sample.rejected) (fun _ _ => Sample.rejected)
         (fun _ _ => Returned None)
         (fun _ => Sample.rejected) (fun _ _ => Sample.rejected)
         (fun _ _ _ => Sample.rejected) (fun _ _ => Sample.rejected)
         (fun _ _ => Sample.rejected) (fun _ _ => Sample.rejected)
         (fun _ => Sample.rejected) (fun _ => Sample.rejected))
      (fun _ => None) None (fun _ => 3) in
  let w := Sample.world (Some Sample.alice) Sample.songs
             [Sample.favourite_of Sample.alice 1 1; Sample.favourite_of Sample.bob 2 1;
              Sample.favourite_of Sample.alice 3 2] [] None in
  let res := removeFavourite (render w) deleting 1 w in
  isFavourite (render w) 1 = true
  /\ isFavourite (render (snd res)) 1 = false
  /\ fst res = Returned (mkApi (Some true) None)
  /\ In (Sample.favourite_of Sample.bob 2 1) (cachedFavourites (state (snd res))).
Proof.
  cbv zeta.
  match goal with
  | |- _ /\ isFavourite (render (snd (removeFavourite (render ?w) ?h ?s ?w))) _ = _ /\ _ =>
      destruct (removeFavourite_removes h s w Sample.alice eq_refl) as (_ & Hok & _);
      destruct (Hok eq_refl) as (Hin & _ & Hheart & Hres)
  end.
  split; [reflexivity|]. split; [exact Hheart|].
  split; [apply Hres; split; reflexivity|].
  apply Hin. split; [simpl; tauto | discriminate].
Defined.

Lemma addFavourite_answers r h songId : answers (addFavourite r h songId).
Proof.
  unfold addFavourite. destruct (user r); [|apply no_user_answers].
  apply attempt_answers. body_answers.
Qed.

Lemma removeFavourite_answers r h songId : answers (removeFavourite r h songId).
Proof.
  unfold removeFavourite. destruct (user r); [|apply no_user_answers].
  apply attempt_answers. body_answers.
Qed.

(** Running an operation for its effect, as the handlers of the screens
    do: [try { await m } catch { }]. *)
Lemma run_ignoring {T : Type} (m : Async (ApiResponse T)) (w : World) :
  answers m ->
  try_catch (m ;; ret tt) (fun _ => ret tt) w = (Returned tt, snd (m w)).
Proof.
  intros Hm. unfold try_catch, bind, ret.
  destruct (Hm w) as (result & w' & -> & _). reflexivity.
Qed.

Lemma existsb_find {A : Type} (p : A -> bool) (l : list A) :
  existsb p l = false <-> List.find p l = None.
Proof.
  induction l as [|x l IH]; simpl; [tauto|].
  destruct (p x); simpl; [split; discriminate | exact IH].
Qed.

(** X10. The heart of a song card toggles the favourite. For a signed-in
    user and a backend that answers an insert with the row inserted,
    [handleFavouriteToggle] never rejects; when the backend accepts the
    request it sends (a delete if the song is a favourite in the render, an
    insert if not), the song's favourite status in the render that follows
    is the opposite of what it was, whether or not the storage accepts the
    snapshot; when the backend refuses, the status stays. So two accepted
    presses, each in the render that follows the last, leave the status as
    it was. *)
Theorem handleFavouriteToggle_flips (h h' : Host) (song : Song.t) (w : World) (u : User.t) :
  user (state w) = Some u ->
  returns_inserted_row (backend h) ->
  returns_inserted_row (backend h') ->
  let accepted (h0 : Host) (w0 : World) :=
    if isFavourite (render w0) (Song.id song)
    then delete_favourite (backend h0) (User.id u) (Song.id song) = Returned None
    else exists row,
           insert_favourite (backend h0) (User.id u) (Song.id song)
           = Returned (SingleRow row) in
  let refused (h0 : Host) (w0 : World) :=
    if isFavourite (render w0) (Song.id song)
    then delete_favourite (backend h0) (User.id u) (Song.id song) <> Returned None
    else forall row,
           insert_favourite (backend h0) (User.id u) (Song.id song)
           <> Returned (SingleRow row) in
  let w1 := snd (handleFavouriteToggle (render w) h song w) in
  let w2 := snd (handleFavouriteToggle (render w1) h' song w1) in
  fst (handleFavouriteToggle (render w) h song w) = Returned tt
  /\ (accepted h w ->
      isFavourite (render w1) (Song.id song) = negb (isFavourite (render w) (Song.id song)))
  /\ (refused h w ->
      isFavourite (render w1) (Song.id song) = isFavourite (render w) (Song.id song))
  /\ (accepted h w -> accepted h' w1 ->
      isFavourite (render w2) (Song.id song) = isFavourite (render w) (Song.id song)).
Proof.
  intros Hu Hb Hb'. cbv zeta.
  assert (Hstep : forall h0 (w0 : World),
            user (state w0) = Some u -> returns_inserted_row (backend h0) ->
            let w' := snd (handleFavouriteToggle (render w0) h0 song w0) in
            fst (handleFavouriteToggle (render w0) h0 song w0) = Returned tt
            /\ user (state w') = Some u
            /\ ((if isFavourite (render w0) (Song.id song)
                 then delete_favourite (backend h0) (User.id u) (Song.id song)
                      = Returned None
                 else exists row,
                        insert_favourite (backend h0) (User.id u) (Song.id song)
                        = Returned (SingleRow row)) ->
                isFavourite (render w') (Song.id song)
                = negb (isFavourite (render w0) (Song.id song)))
            /\ ((if isFavourite (render w0) (Song.id song)
                 then delete_favourite (backend h0) (User.id u) (Song.id song)
                      <> Returned None
                 else forall row,
                        insert_favourite (backend h0) (User.id u) (Song.id song)
                        <> Returned (SingleRow row)) ->
                isFavourite (render w') (Song.id song)
                = isFavourite (render w0) (Song.id song))).
  { intros h0 w0 Hu0 Hb0. cbv zeta. unfold handleFavouriteToggle.
    destruct (isFavourite (render w0) (Song.id song)) eqn:Hfav.
    - rewrite (run_ignoring _ _ (removeFavourite_answers _ _ _)). cbn [fst snd].
      destruct (removeFavourite_cases (render w0) h0 (Song.id song) w0 u Hu0)
        as (Huser & _ & Hok & Hfail).
      unfold isFavourite in *. unfold render in *.
      split; [reflexivity|]. split; [congruence|]. split.
      + intros Hreply. destruct (Hok Hreply) as [Hcache _].
        rewrite Huser, Hu0, Hcache. apply isFavourite_filtered.
      + intros Hreply. destruct (Hfail Hreply) as (Hstate & _).
        rewrite Hstate. exact Hfav.
    - rewrite (run_ignoring _ _ (addFavourite_answers _ _ _)). cbn [fst snd].
      destruct (addFavourite_cases (render w0) h0 (Song.id song) w0 u Hu0)
        as (Huser & Hcases).
      unfold isFavourite in *. unfold render in *. rewrite Hu0 in Hfav.
      assert (Hnone : List.find (same_favourite u (Song.id song))
                                (cachedFavourites (state w0)) = None)
        by (apply existsb_find; exact Hfav).
      split; [reflexivity|]. split; [congruence|].
      rewrite Huser, Hu0.
      destruct Hcases as [(e & Hfind & _)
                         |[(_ & row & Hins & Hcache & _)|(_ & Hcache & _)]];
        [congruence| |].
      + split.
        * intros _. rewrite Hcache, existsb_app. simpl.
          assert (same_favourite u (Song.id song) row = true) as ->.
          { apply same_favourite_key. unfold favourite_key.
            destruct (Hb0 _ _ _ Hins) as [-> ->]. reflexivity. }
          rewrite orb_true_r. reflexivity.
        * intros Hrefused. exfalso. exact (Hrefused row Hins).
      + split.
        * intros [row Hins]. exfalso. revert Hcache.
          unfold addFavourite. rewrite Hu0, Hnone.
          unfold updateCache; unfold_async. rewrite Hins. simpl.
          case_host; simpl; intros Hcache;
            apply (f_equal (@length _)) in Hcache;
            rewrite length_app in Hcache; simpl in Hcache; lia.
        * intros _. rewrite Hcache. exact Hfav. }
  destruct (Hstep h w Hu Hb) as (Hres & Hu1 & Hflip & Hstay).
  split; [exact Hres|]. split; [exact Hflip|]. split; [exact Hstay|].
  intros Hacc Hacc'.
  destruct (Hstep h' _ Hu1 Hb') as (_ & _ & Hflip' & _).
  rewrite (Hflip' Hacc'), (Hflip Hacc). apply negb_involutive.
Qed.

Lemma handleFavouriteToggle_flips_witness :
  let toggling :=
    mkHost
      (mkBackend Sample.rejected (fun _ => Sample.rejected) (fun _ _ => Sample.rejected)
         (fun _ => Sample.rejected)
         (fun uid sid => Returned (SingleRow (Favourite.mk (Some 10) uid sid None None)))
         (fun _ _ => Returned None)
         (fun _ => Sample.rejected) (fun _ _ => Sample.rejected)
         (fun _ _ _ => Sample.rejected) (fun _ _ => Sample.rejected)
         (fun _ _ => Sample.rejected) (fun _ _ => Sample.rejected)
         (fun _ => Sample.rejected) (fun _ => Sample.rejected))
      (fun _ => None) None (fun _ => 3) in
  let w := Sample.world (Some Sample.alice) Sample.songs [] [] None in
  let w1 := snd (handleFavouriteToggle (render w) toggling Sample.amazing_grace w) in
  let w2 := snd (handleFavouriteToggle (render w1) toggling Sample.amazing_grace w1) in
  isFavourite (render w) 1 = false
  /\ isFavourite (render w1) 1 = true
  /\ isFavourite (render w2) 1 = false.
Proof.
  cbv zeta.
  match goal with
  | |- _ /\ isFavourite (render (snd (handleFavouriteToggle (render ?w) ?h ?s ?w))) _ = _
       /\ _ =>
      assert (Hb : returns_inserted_row (backend h))
        by (intros uid sid row H; simpl in H; inversion H; split; reflexivity);
      destruct (handleFavouriteToggle_flips h h s w Sample.alice eq_refl Hb Hb)
        as (_ & Hflip & _ & Htwice)
  end.
  split; [reflexivity|].
  split; [apply Hflip; simpl; eauto|].
  apply Htwice; [simpl; eauto | reflexivity].
Defined.

(** ** Folder mutations *)

Ltac mutation_cases h u :=
  let w := fresh "w" in
  intros w; unfold folders_after, reply_failed, updateCache; unfold_async;
  destruct (select_folders (backend h) (User.id u)) as [[[d|] [e|]]|e]; simpl;
  case_host;
  (split; [reflexivity|]); (split; [reflexivity|]); (split; [reflexivity|]);
  intros Hfailed; first [ contradiction Hfailed; reflexivity | eauto ].

Lemma createFolder_mutates (r : Render) (h : Host) (u : User.t) (name : string) :
  user r = Some u ->
  mutates_folders (createFolder r h name) (InsertFolder (User.id u) (JS.trim name))
    (single_row (insert_folder (backend h) (User.id u) (JS.trim name))) None h u.
Proof.
  intros Hu. unfold mutates_folders, createFolder, fetchFolders. rewrite Hu. cbv zeta.
  destruct (insert_folder (backend h) (User.id u) (JS.trim name)) as [[row|err]|exn]; simpl.
  - mutation_cases h u.
  - intros w. unfold_async. simpl. eauto 8.
  - intros w. unfold_async. simpl. eauto 8.
Qed.

Lemma updateFolder_mutates (r : Render) (h : Host) (u : User.t) (id : Z) (name : string) :
  user r = Some u ->
  mutates_folders (updateFolder r h id name) (UpdateFolder id (User.id u) (JS.trim name))
    (single_row (update_folder (backend h) id (User.id u) (JS.trim name))) None h u.
Proof.
  intros Hu. unfold mutates_folders, updateFolder, fetchFolders. rewrite Hu. cbv zeta.
  destruct (update_folder (backend h) id (User.id u) (JS.trim name)) as [[row|err]|exn];
    simpl.
  - mutation_cases h u.
  - intros w. unfold_async. simpl. eauto 8.
  - intros w. unfold_async. simpl. eauto 8.
Qed.

Lemma deleteFolder_mutates (r : Render) (h : Host) (u : User.t) (id : Z) :
  user r = Some u ->
  mutates_folders (deleteFolder r h id) (DeleteFolder id (User.id u))
    (deleted (delete_folder (backend h) id (User.id u))) (Some false) h u.
Proof.
  intros Hu. unfold mutates_folders, deleteFolder, fetchFolders. rewrite Hu. cbv zeta.
  destruct (delete_folder (backend h) id (User.id u)) as [[err|]|exn]; simpl.
  - intros w. unfold_async. simpl. eauto 8.
  - mutation_cases h u.
  - intros w. unfold_async. simpl. eauto 8.
Qed.

(** X11. Creating, renaming and deleting a folder report what the backend
    made of the mutation alone. For a signed-in user, when the backend
    accepts the mutation (the name sent without surrounding white space),
    the call returns the row (for a delete, [true]) with no error, then one
    refresh of the folders is sent, and the cached folders are what the
    refresh leaves: the rows fetched, or the folders cached before when the
    refresh fails, in which case state and storage are untouched and only
    the hook's error tells; so a delete can return [true] with the folder
    still cached. When the backend refuses the mutation or the promise
    rejects, the call returns the message, no refresh is sent, and state
    and storage are as they were. *)
Theorem folder_mutations_refresh (r : Render) (h : Host) (u : User.t) (id : Z) (name : string) :
  user r = Some u ->
  mutates_folders (createFolder r h name) (InsertFolder (User.id u) (JS.trim name))
    (single_row (insert_folder (backend h) (User.id u) (JS.trim name))) None h u
  /\ mutates_folders (updateFolder r h id name) (UpdateFolder id (User.id u) (JS.trim name))
       (single_row (update_folder (backend h) id (User.id u) (JS.trim name))) None h u
  /\ mutates_folders (deleteFolder r h id) (DeleteFolder id (User.id u))
       (deleted (delete_folder (backend h) id (User.id u))) (Some false) h u.
Proof.
  intros Hu. split; [|split].
  - apply createFolder_mutates, Hu.
  - apply updateFolder_mutates, Hu.
  - apply deleteFolder_mutates, Hu.
Qed.

Lemma folder_mutations_refresh_witness :
  let deleting :=
    mkBackend Sample.rejected (fun _ => Sample.rejected) (fun _ _ => Sample.rejected)
      (fun _ => Sample.rejected) (fun _ _ => Sample.rejected) (fun _ _ => Sample.rejected)
      (fun _ => Sample.rejected) (fun _ _ => Sample.rejected)
      (fun _ _ _ => Sample.rejected) (fun _ _ => Returned None)
      (fun _ _ => Sample.rejected) (fun _ _ => Sample.rejected)
      (fun _ => Sample.rejected) (fun _ => Sample.rejected) in
  let h := Sample.device deleting 5 in
  let hymns := Sample.folder_of Sample.alice 3 "Hymns" in
  let w := Sample.world (Some Sample.alice) [] [] [hymns] None in
  let res := deleteFolder (render w) h 3 w in
  fst res = Returned (mkApi (Some true) None)
  /\ network (snd res) = [SelectFolders "a11ce"; DeleteFolder 3 "a11ce"]
  /\ getFolders (render (snd res)) = [hymns]
  /\ exists msg, hook_error (snd res) = Some msg.
Proof.
  intros deleting h hymns w.
  destruct (folder_mutations_refresh (render w) h Sample.alice 3 "Hymns" eq_refl)
    as (_ & _ & Hdelete).
  destruct (Hdelete w) as (Hres & Hnet & Hcached & Hfailed).
  destruct (Hfailed I) as (Hstate & _ & Herr).
  cbv zeta. split; [exact Hres|]. split; [exact Hnet|].
  split; [|exact Herr].
  unfold render in *. rewrite Hstate. reflexivity.
Defined.

(** ** The lists of the screens *)

Lemma insert_sorted_Sorted {A : Type} (compare : A -> A -> Z) (x : A) (l : list A) :
  (forall a b, 0 < compare a b -> compare b a <= 0) ->
  Sorted (fun a b => compare a b <= 0) l ->
  Sorted (fun a b => compare a b <= 0) (JS.insert_sorted compare x l).
Proof.
  intros Htotal. induction l as [|y l IH]; intros Hl; simpl.
  - repeat constructor.
  - destruct (compare x y <=? 0) eqn:E.
    + constructor; [exact Hl|]. constructor. apply Z.leb_le, E.
    + apply Z.leb_gt in E. inversion Hl as [|? ? Hl' Hhd]; subst.
      constructor; [exact (IH Hl')|].
      destruct l as [|z l]; simpl.
      * constructor. apply Htotal, E.
      * destruct (compare x z <=? 0).
        -- constructor. apply Htotal, E.
        -- inversion Hhd; subst. constructor. assumption.
Qed.

Lemma sort_Sorted {A : Type} (compare : A -> A -> Z) (l : list A) :
  (forall a b, 0 < compare a b -> compare b a <= 0) ->
  Sorted (fun a b => compare a b <= 0) (JS.sort compare l).
Proof.
  intros Htotal. unfold JS.sort. induction l as [|x l IH]; simpl; [constructor|].
  apply insert_sorted_Sorted; assumption.
Qed.

Lemma Sorted_weaken {A : Type} (R S : A -> A -> Prop) (l : list A) :
  (forall a b, R a b -> S a b) -> Sorted R l -> Sorted S l.
Proof.
  intros HRS Hl. induction Hl as [|x l Hl IH Hhd]; constructor; [exact IH|].
  destruct Hhd; constructor; auto.
Qed.

(** X12. The order of the Songs screen. For a query that is not blank the
    list shown is a rearrangement of songs kept from [allSongs], none
    repeated or lost by the sort; for a query of digits it is in ascending
    order of song number; for any other query it is in the order of the
    titles under the device's collation, provided the collation never puts
    each of two titles after the other. *)
Theorem filteredSongs_sorted (localeCompare : string -> string -> Z)
    (allSongs : list Song.t) (searchQuery : string) :
  JS.trim searchQuery <> EmptyString ->
  let shown := filteredSongs localeCompare allSongs searchQuery in
  (exists kept, kept_in_order kept allSongs /\ Permutation shown kept)
  /\ (JS.test_digits (JS.trim searchQuery) = true ->
      Sorted (fun a b => Song.song_number a <= Song.song_number b) shown)
  /\ (JS.test_digits (JS.trim searchQuery) = false ->
      (forall s t, 0 < localeCompare s t -> localeCompare t s <= 0) ->
      Sorted (fun a b => localeCompare (Song.title a) (Song.title b) <= 0) shown).
Proof.
  intros Hne. cbv zeta. unfold filteredSongs.
  apply truthy_nonempty in Hne. rewrite Hne. cbn [negb].
  rewrite trim_toLowerCase, test_digits_toLowerCase.
  split; [|split].
  - eexists. split; [apply filter_kept_in_order | apply sort_Permutation].
  - intros ->.
    eapply Sorted_weaken;
      [|apply (sort_Sorted (fun a b => Song.song_number a - Song.song_number b));
        intros; lia].
    intros a b. simpl. lia.
  - intros -> Htotal.
    apply (sort_Sorted (fun a b => localeCompare (Song.title a) (Song.title b))).
    intros a b. apply Htotal.
Qed.

Lemma filteredSongs_sorted_witness :
  Sorted (fun a b => Song.song_number a <= Song.song_number b)
         (filteredSongs Sample.collate [Sample.holy_night; Sample.amazing_grace] " 1 ").
Proof.
  destruct (filteredSongs_sorted Sample.collate
              [Sample.holy_night; Sample.amazing_grace] " 1 ") as (_ & Hdigits & _);
    [discriminate|].
  apply Hdigits. reflexivity.
Defined.





(** ** The song counts of the folder cards *)






(** ** The songs offered for a folder *)

Lemma availableSongs_In (allSongs folderSongs : list Song.t) (song : Song.t) :
  In song (availableSongs allSongs folderSongs) <->
  In song allSongs
  /\ forall folderSong, In folderSong folderSongs -> Song.id folderSong <> Song.id song.
Proof.
  unfold availableSongs. rewrite filter_In, negb_true_iff.
  split; intros [Hin Hnone]; (split; [exact Hin|]).
  - intros folderSong Hf Heq.
    assert (existsb (fun folderSong => Song.id folderSong =? Song.id song) folderSongs = true)
      as Htrue by (apply existsb_exists; exists folderSong; split; [exact Hf | lia]).
    congruence.
  - apply not_true_is_false. intros Hex. apply existsb_exists in Hex as (f & Hf & Heq).
    apply (Hnone f Hf). lia.
Qed.

(** X15. The songs a folder offers to add. The list of [handleAddSongs]
    holds at most five songs, all of them songs of [allSongs] in their
    order, none with the id of a song already in the folder; it is empty
    exactly when every song has the id of a song of the folder. When at
    most five songs are not in the folder, every one of them is offered. *)
Theorem offeredSongs_spec (allSongs folderSongs : list Song.t) :
  let offered := offeredSongs allSongs folderSongs in
  let in_folder (song : Song.t) :=
    exists folderSong, In folderSong folderSongs /\ Song.id folderSong = Song.id song in
  (length offered <= 5)%nat
  /\ kept_in_order offered allSongs
  /\ (forall song, In song offered -> In song allSongs /\ ~ in_folder song)
  /\ (offered = [] <-> forall song, In song allSongs -> in_folder song)
  /\ ((length (availableSongs allSongs folderSongs) <= 5)%nat ->
      forall song, In song allSongs -> ~ in_folder song -> In song offered).
Proof.
  cbv zeta. unfold offeredSongs.
  assert (Hav : forall song,
            In song (availableSongs allSongs folderSongs) <->
            In song allSongs
            /\ ~ (exists folderSong, In folderSong folderSongs
                                     /\ Song.id folderSong = Song.id song)).
  { intros song. rewrite availableSongs_In. split; intros [Hin Hnone]; (split; [exact Hin|]).
    - intros (f & Hf & Heq). exact (Hnone f Hf Heq).
    - intros f Hf Heq. apply Hnone. eauto. }
  split; [apply firstn_le_length|].
  split.
  { unfold kept_in_order. etransitivity; [apply sublist_take|].
    apply filter_kept_in_order. }
  split.
  { intros song Hin. apply Hav. apply list_elem_of_In.
    eapply elem_of_sublist; [apply list_elem_of_In, Hin | apply sublist_take]. }
  split.
  { split.
    - intros Hempty song Hin.
      destruct (existsb (fun folderSong => Song.id folderSong =? Song.id song) folderSongs)
        eqn:Hex.
      + apply existsb_exists in Hex as (f & Hf & Heq). exists f. split; [exact Hf | lia].
      + exfalso.
        assert (Hsong : In song (availableSongs allSongs folderSongs))
          by (unfold availableSongs; apply filter_In; rewrite Hex; auto).
        destruct (availableSongs allSongs folderSongs) as [|x l]; [exact Hsong|].
        discriminate Hempty.
    - intros Hall.
      destruct (availableSongs allSongs folderSongs) as [|x l] eqn:E; [reflexivity|].
      exfalso. assert (Hx : In x (x :: l)) by (left; reflexivity).
      apply Hav in Hx as [Hin Hnot]. exact (Hnot (Hall x Hin)). }
  intros Hfew song Hin Hnot. rewrite take_ge by exact Hfew. apply Hav. auto.
Qed.

(** ** Loading the songs of the Songs screen *)

(** X16. What the Songs screen lists. At mount a cache that holds songs is
    shown as it is and nothing is sent. Otherwise [loadSongs] never
    rejects and shows: the songs cached in the render when the query
    fails; the rows fetched when the backend answers with data and the
    storage accepts the snapshot; but the songs cached in the render, not
    the rows fetched, when the storage rejects the snapshot, although the
    cache in memory now holds the rows fetched; and the empty list for a
    reply with neither data nor error. *)
Theorem loadSongs_shows (r : Render) (h : Host) (w : World) :
  (getSongs r <> [] -> initializeSongs r h w = (Returned (getSongs r), w))
  /\ (getSongs r = [] -> initializeSongs r h w = loadSongs r h w)
  /\ exists shown w',
       loadSongs r h w = (Returned shown, w')
       /\ network w' = SelectSongs :: network w
       /\ (reply_failed (select_songs (backend h)) ->
           shown = getSongs r /\ state w' = state w /\ storage w' = storage w)
       /\ (forall d, select_songs (backend h) = Returned (mkPg (Some d) None) ->
             cachedSongs (state w') = d
             /\ (accepts_snapshot h -> shown = d)
             /\ (~ accepts_snapshot h -> shown = getSongs r))
       /\ (select_songs (backend h) = Returned (mkPg None None) ->
           shown = [] /\ state w' = state w /\ storage w' = storage w).
Proof.
  split; [|split].
  - unfold initializeSongs. destruct (getSongs r); [congruence | reflexivity].
  - unfold initializeSongs. intros ->. reflexivity.
  - unfold loadSongs.
    destruct (fetchSongs_answers r h w) as (result & w' & Hrun & _).
    unfold try_catch, bind, ret. rewrite Hrun.
    exists (match data result with Some d => d | None => getSongs r end), w'.
    split; [destruct (data result); reflexivity|].
    assert (Hfst : fst (fetchSongs r h w) = Returned result) by (rewrite Hrun; reflexivity).
    assert (Hsnd : snd (fetchSongs r h w) = w') by (rewrite Hrun; reflexivity).
    split; [|split; [|split]].
    + rewrite <- Hsnd. unfold fetchSongs, updateCache; unfold_async.
      destruct (select_songs (backend h)) as [[[d|] [e|]]|e]; simpl; try reflexivity.
      case_host; reflexivity.
    + intros Hfailed.
      destruct (fetchSongs_failed r h w Hfailed) as (Hstate & Hstorage & _ & msg & Hres).
      rewrite Hfst in Hres. injection Hres as ->. rewrite <- Hsnd. auto.
    + intros d Hreply.
      destruct (fetchSongs_fetched r h w d Hreply) as (Hcached & _ & _ & _ & Hok & Hno).
      rewrite <- Hsnd. split; [exact Hcached|]. split.
      * intros Hacc. destruct (Hok Hacc) as (Hres & _).
        rewrite Hfst in Hres. injection Hres as ->. reflexivity.
      * intros Hrej. destruct (Hno Hrej) as (_ & msg & Hres).
        rewrite Hfst in Hres. injection Hres as ->. reflexivity.
    + intros Hreply. revert Hfst Hsnd.
      unfold fetchSongs; unfold_async. rewrite Hreply. simpl.
      intros Hres <-. injection Hres as <-. auto.
Qed.

Lemma loadSongs_shows_witness :
  let w := Sample.world None [Sample.holy_night] [] [] None in
  let h := Sample.full_device (Sample.serving Sample.songs) 7 in
  fst (loadSongs (render w) h w) = Returned [Sample.holy_night]
  /\ cachedSongs (state (snd (loadSongs (render w) h w))) = Sample.songs.
Proof.
  intros w h.
  destruct (loadSongs_shows (render w) h w) as (_ & _ & shown & w' & Hrun & _ & _ & Hdata & _).
  destruct (Hdata Sample.songs eq_refl) as (Hcached & _ & Hrejected).
  rewrite Hrun. simpl. split; [|exact Hcached].
  rewrite Hrejected; [reflexivity|]. intros [Hset _]. discriminate Hset.
Defined.

(** ** Renaming a folder *)







(** ** The heart and the lists of favourites agree *)

Lemma omap_length_le {A B : Type} (f : A -> option B) (l : list A) :
  (length (omap f l) <= length l)%nat.
Proof.
  induction l as [|x l IH]; [simpl; lia|].
  change (omap f (x :: l))
    with (match f x with Some y => y :: omap f l | None => omap f l end).
  destruct (f x); simpl; lia.
Qed.

Lemma In_omap {A B : Type} (f : A -> option B) (l : list A) (y : B) :
  In y (omap f l) <-> exists x, In x l /\ f x = Some y.
Proof.
  rewrite <- list_elem_of_In, list_elem_of_omap.
  split; intros (x & Hin & Hx); exists x; (split; [apply list_elem_of_In, Hin | exact Hx]).
Qed.

(** X18. The heart, the favourites of the user and the offline list of
    favourites agree. The heart of a song is filled ([isFavourite]) exactly
    when [getFavourites] holds a favourite for the song. Every song of the
    list shown offline ([loadCachedFavourites]) is a cached song whose
    heart is filled, and a song whose heart is filled is in that list,
    under some cached song of its id, exactly as far as the song is
    cached: a favourite whose song is not in the cache is left out, so the
    list is never longer than the favourites. *)
Theorem favourites_agree (r : Render) :
  (forall songId,
     isFavourite r songId = true <->
     exists fav, In fav (getFavourites r) /\ Favourite.song_id fav = songId)
  /\ (forall song,
        In song (loadCachedFavourites r) ->
        In song (getSongs r) /\ isFavourite r (Song.id song) = true)
  /\ (forall songId,
        isFavourite r songId = true ->
        (exists song, In song (getSongs r) /\ Song.id song = songId) <->
        (exists song, In song (loadCachedFavourites r) /\ Song.id song = songId))
  /\ (length (loadCachedFavourites r) <= length (getFavourites r))%nat.
Proof.
  assert (Hheart : forall songId,
            isFavourite r songId = true <->
            exists fav, In fav (getFavourites r) /\ Favourite.song_id fav = songId).
  { intros songId. unfold isFavourite, getFavourites.
    destruct (user r) as [u|]; [|split; [discriminate | intros (fav & [] & _)]].
    rewrite existsb_exists. unfold same_favourite. split.
    - intros (fav & Hin & Hsame). apply andb_true_iff in Hsame as [Hs Hu].
      exists fav. rewrite filter_In. split; [auto | apply Z.eqb_eq, Hs].
    - intros (fav & Hin & Hs). apply filter_In in Hin as [Hin Hu].
      exists fav. split; [exact Hin|]. rewrite Hu, andb_true_r. apply Z.eqb_eq, Hs. }
  assert (Hshown : forall song,
            In song (loadCachedFavourites r) <->
            exists fav, In fav (getFavourites r)
                        /\ List.find (fun song => Song.id song =? Favourite.song_id fav)
                                     (getSongs r) = Some song).
  { intros song. unfold loadCachedFavourites. apply In_omap. }
  split; [exact Hheart|]. split; [|split].
  - intros song Hin. apply Hshown in Hin as (fav & Hfav & Hfind).
    apply find_some in Hfind as [Hsong Hid]. split; [exact Hsong|].
    apply Hheart. exists fav. split; [exact Hfav|]. apply Z.eqb_eq in Hid. congruence.
  - intros songId Hfilled. apply Hheart in Hfilled as (fav & Hfav & Hid). split.
    + intros (song & Hsong & Hsid).
      destruct (List.find (fun song => Song.id song =? Favourite.song_id fav) (getSongs r))
        as [found|] eqn:Hfind.
      * exists found. split; [apply Hshown; eauto|].
        apply find_some in Hfind as [_ Hfound]. apply Z.eqb_eq in Hfound. congruence.
      * exfalso. apply (find_none _ _ Hfind) in Hsong. apply Z.eqb_neq in Hsong. congruence.
    + intros (song & Hin & Hsid). exists song. split; [|exact Hsid].
      apply Hshown in Hin as (fav' & _ & Hfind). apply find_some in Hfind. tauto.
  - unfold loadCachedFavourites. apply omap_length_le.
Qed.

(** ** Two changes of the settings *)

Lemma updateSettings_storage r h newSettings w :
  setItem_rejects h STORAGE_KEYS.SETTINGS = None ->
  storage (snd (updateSettings r h newSettings w)) !! STORAGE_KEYS.SETTINGS
  = Some (SettingsJSON (AppSettings.spread (settings r) newSettings)).
Proof.
  intros Hset. unfold updateSettings; unfold_async. rewrite Hset. simpl.
  apply lookup_insert_eq.
Qed.

(** X19. Two changes of the settings add up only across renders.
    [updateSettings] spreads the change over the settings of the render
    its closure belongs to. A second change made through the closures of
    the render that follows the first keeps what the first changed. A
    second change made through the closures of the same render as the
    first puts back, in state and in what is stored, every field the first
    changed and the second does not name. So the theme toggled twice is
    the theme of before when the second toggle belongs to the next render,
    and the theme toggled once when both belong to the same render. *)
Theorem updateSettings_stale_closure (r : Render) (h1 h2 : Host)
    (first second : AppSettings.partial) (w : World) :
  let w1 := snd (updateSettings r h1 first w) in
  let next := snd (updateSettings (render w1) h2 second w1) in
  let same := snd (updateSettings r h2 second w1) in
  let toggled := snd (toggleTheme r h1 w) in
  settings (state next)
  = AppSettings.spread (AppSettings.spread (settings r) first) second
  /\ settings (state same) = AppSettings.spread (settings r) second
  /\ (setItem_rejects h2 STORAGE_KEYS.SETTINGS = None ->
      storage next !! STORAGE_KEYS.SETTINGS = Some (SettingsJSON (settings (state next)))
      /\ storage same !! STORAGE_KEYS.SETTINGS = Some (SettingsJSON (settings (state same))))
  /\ AppSettings.theme (settings (state toggled)) <> AppSettings.theme (settings r)
  /\ AppSettings.theme (settings (state (snd (toggleTheme (render toggled) h2 toggled))))
     = AppSettings.theme (settings r)
  /\ AppSettings.theme (settings (state (snd (toggleTheme r h2 toggled))))
     = AppSettings.theme (settings (state toggled)).
Proof.
  cbv zeta. unfold toggleTheme, render.
  rewrite !updateSettings_settings.
  split; [reflexivity|]. split; [reflexivity|]. split.
  - intros Hset. rewrite !updateSettings_storage by exact Hset.
    rewrite updateSettings_settings. split; reflexivity.
  - simpl. destruct (AppSettings.theme (settings r)); repeat split; discriminate.
Qed.

(** ** The songs of a folder *)

(** X20. [getFolderSongs] sends its query whether or not a user is signed
    in and touches neither cache nor storage. From a reply with link rows
    it returns the songs the rows carry, in their order, leaving out the
    rows whose song is missing, so no more songs than rows; a reply with
    neither data nor error gives the empty list; a failed query gives its
    message, which is also the hook's error. *)
Theorem getFolderSongs_drops_missing (h : Host) (folderId : Z) (w : World) :
  let res := getFolderSongs h folderId w in
  let reply := select_folder_songs (backend h) folderId in
  network (snd res) = SelectFolderSongs folderId :: network w
  /\ state (snd res) = state w
  /\ storage (snd res) = storage w
  /\ (forall links,
        reply = Returned (mkPg (Some links) None) ->
        exists songs,
          fst res = Returned (mkApi (Some songs) None)
          /\ kept_in_order (map Some songs) links
          /\ (forall song, In song songs <-> In (Some song) links)
          /\ (length songs <= length links)%nat
          /\ hook_error (snd res) = None)
  /\ (reply = Returned (mkPg None None) -> fst res = Returned (mkApi (Some []) None))
  /\ (reply_failed reply ->
      exists msg, fst res = Returned (mkApi None (Some msg))
                  /\ hook_error (snd res) = Some msg).
Proof.
  cbv zeta. unfold getFolderSongs, reply_failed; unfold_async.
  destruct (select_folder_songs (backend h) folderId) as [[[links|] [e|]]|e]; simpl;
    (split; [reflexivity|]); (split; [reflexivity|]); (split; [reflexivity|]);
    (split; [|split]); try discriminate; eauto;
    try (intros H; contradiction H; reflexivity).
  intros ? [= <-]. eexists. split; [reflexivity|].
  split; [|split; [|split; [|reflexivity]]].
  - unfold kept_in_order. clear. induction links as [|[song|] links IH].
    + constructor.
    + change (omap (fun item_song : option Song.t => item_song) (Some song :: links))
        with (song :: omap (fun item_song : option Song.t => item_song) links).
      simpl. apply sublist_skip, IH.
    + change (omap (fun item_song : option Song.t => item_song) (None :: links))
        with (omap (fun item_song : option Song.t => item_song) links).
      apply sublist_cons, IH.
  - intros song. rewrite In_omap. split.
    + intros (x & Hin & ->). exact Hin.
    + intros Hin. eauto.
  - apply omap_length_le.
Qed.
